(** * Entitlement and quota enforcement: [internal/license/check.go]

    A shallow embedding of the licence package (tier resolution from the
    LICENSE_KEY credential, the daily run counter with its 24 hour reset,
    the token budget and the status line), followed by the properties the
    specification states about it.

    Conventions of the embedding.
    - Go's [int] is the 64-bit two's complement integer; it is carried as
      a [Z] and every arithmetic result is passed through [wrap_int].
    - A [time.Time] is represented by its monotonic clock reading in
      nanoseconds; a [time.Duration] is an int64 number of nanoseconds.
    - A method with receiver [*License] is a computation in the state
      monad [M] over the [License] record.  A method that reads the clock
      receives its readings as an argument.
    - The mutex [mu] appears in the interleaving model of two goroutines
      ([stepThread], [runSchedule]); the sequential methods describe what
      a critical section does once the lock is held. *)

From Stdlib Require Import ZArith String Ascii List Bool Lia DecimalString.
Import ListNotations.

Local Open Scope string_scope.
Local Open Scope Z_scope.

(** ** Machine integers, time *)

Definition max_int : Z := 9223372036854775807.
Definition min_int : Z := -9223372036854775808.

Definition in_int (z : Z) : Prop := min_int <= z <= max_int.

(** Two's complement wrap-around of a 64-bit signed result. *)
Definition wrap_int (z : Z) : Z :=
  (z - min_int) mod 18446744073709551616 + min_int.

Definition Time := Z.
Definition Duration := Z.

Definition Hour : Duration := 3600 * 1000000000.
Definition maxDuration : Duration := max_int.
Definition minDuration : Duration := min_int.

(** [now.Sub(t)] on monotonic readings: the difference, saturated to the
    range of a Duration.  [time.Since(t)] is [time.Now().Sub(t)]. *)
Definition Since (now t : Time) : Duration :=
  Z.max minDuration (Z.min maxDuration (now - t)).

(** ** Formatting *)

(** The verb [%d] of package fmt on an int. *)
Definition fmt_d (z : Z) : string := NilEmpty.string_of_int (Z.to_int z).

(** ** Data model *)

Inductive Tier : Set := FreeTier | ProTier | EnterpriseTier.

Definition Tier_eqb (a b : Tier) : bool :=
  match a, b with
  | FreeTier, FreeTier | ProTier, ProTier
  | EnterpriseTier, EnterpriseTier => true
  | _, _ => false
  end.

(** The struct [License] without its mutex.  The field [Tier] is named
    [LTier] here, the type keeping the name [Tier]. *)
Record License : Set := mkLicense {
  LTier : Tier;
  Key : string;
  DailyRuns : Z;
  MaxRuns : Z;
  LastReset : Time
}.

Definition FreeMaxRunsPerDay : Z := 5.
Definition FreeMaxTokensPerRun : Z := 1000.
Definition ProMaxRunsPerDay : Z := 100.
Definition ProMaxTokensPerRun : Z := 10000.
Definition EnterpriseMaxRuns : Z := -1.
Definition EnterpriseMaxTokens : Z := -1.

(** ** Tier resolution *)

(** [strings.HasPrefix(s, p)] is [String.prefix p s]; [len(key)] counts
    bytes, as [String.length] does. *)
Definition HasPrefix (s p : string) : bool := String.prefix p s.

Definition validateKey (key : string) : bool :=
  if HasPrefix key "PRO_" && (20 <=? Z.of_nat (String.length key))%Z then true
  else if HasPrefix key "ENT_" && (20 <=? Z.of_nat (String.length key))%Z then true
  else false.

(** What [Initialize] writes to standard output. *)
Inductive Message : Set :=
| FreeTierBanner
| EnterpriseActivated
| ProActivated
| InvalidKeyWarning.

(** The closure passed to [once.Do]: [key] is the value of LICENSE_KEY
    (empty when unset), [now] the reading of [time.Now()].  The zero value
    of [DailyRuns] is 0. *)
Definition initLicense (key : string) (now : Time) : License * list Message :=
  let l0 := mkLicense FreeTier key 0 0 now in
  if String.eqb key "" then
    (mkLicense FreeTier key (DailyRuns l0) FreeMaxRunsPerDay now,
     [FreeTierBanner])
  else if validateKey key then
    if HasPrefix key "ENT_" then
      (mkLicense EnterpriseTier key (DailyRuns l0) EnterpriseMaxRuns now,
       [EnterpriseActivated])
    else
      (mkLicense ProTier key (DailyRuns l0) ProMaxRunsPerDay now,
       [ProActivated])
  else
    (mkLicense FreeTier key (DailyRuns l0) FreeMaxRunsPerDay now,
     [InvalidKeyWarning; FreeTierBanner]).

Definition newLicense (key : string) (now : Time) : License :=
  fst (initLicense key now).

(** The package-level variables [currentLicense] and [once], and the
    output written so far. *)
Record Process : Set := mkProcess {
  currentLicense : option License;
  once : bool;
  stdout : list Message
}.

Definition startup : Process := mkProcess None false [].

Definition Initialize (env : string) (now : Time) (p : Process)
  : option License * Process :=
  if once p then (currentLicense p, p)
  else
    let (l, out) := initLicense env now in
    (Some l, mkProcess (Some l) true (stdout p ++ out)).

Definition GetLicense (env : string) (now : Time) (p : Process)
  : option License * Process :=
  match currentLicense p with
  | None => Initialize env now p
  | Some l => (Some l, p)
  end.

(** ** Methods of [*License] *)

Definition M (A : Type) : Type := License -> A * License.

Definition ret {A} (a : A) : M A := fun l => (a, l).
Definition bind {A B} (m : M A) (k : A -> M B) : M B :=
  fun l => let (a, l') := m l in k a l'.
Definition get : M License := fun l => (l, l).

Notation "x <- m ;; k" := (bind m (fun x => k))
  (at level 61, m at next level, right associativity).
Notation "m ;; k" := (bind m (fun _ => k))
  (at level 61, right associativity).

Definition setDailyRuns (n : Z) : M unit :=
  fun l => (tt, mkLicense (LTier l) (Key l) n (MaxRuns l) (LastReset l)).
Definition setLastReset (t : Time) : M unit :=
  fun l => (tt, mkLicense (LTier l) (Key l) (DailyRuns l) (MaxRuns l) t).

(** [l.DailyRuns++] *)
Definition incrDailyRuns : M unit :=
  l <- get ;; setDailyRuns (wrap_int (DailyRuns l + 1)).

Definition upgradeURL : string :=
  "https://bakerstreetproject221B.store/pricing".

(** [fmt.Sprintf("Daily limit reached (%d/%d runs). Upgrade at ...", u, m)] *)
Definition limitMessage (used limit : Z) : string :=
  "Daily limit reached (" ++ fmt_d used ++ "/" ++ fmt_d limit
    ++ " runs). Upgrade at " ++ upgradeURL.

(** The clock readings one call of [CanRun] may take: [tSince] inside
    [time.Since], and [tNow] by [time.Now()] when the counter is reset. *)
Record Clock : Set := mkClock { tSince : Time; tNow : Time }.

Definition resetDue (c : Clock) (l : License) : bool :=
  Since (tSince c) (LastReset l) >? 24 * Hour.

Definition CanRun (c : Clock) : M (bool * string) :=
  l <- get ;;
  (if resetDue c l
   then setDailyRuns 0 ;; setLastReset (tNow c)
   else ret tt) ;;
  l <- get ;;
  if Tier_eqb (LTier l) EnterpriseTier then
    incrDailyRuns ;; ret (true, "")
  else if DailyRuns l >=? MaxRuns l then
    ret (false, limitMessage (DailyRuns l) (MaxRuns l))
  else
    incrDailyRuns ;; ret (true, "").

Definition GetMaxTokens : M Z :=
  l <- get ;;
  match LTier l with
  | EnterpriseTier => ret EnterpriseMaxTokens
  | ProTier => ret ProMaxTokensPerRun
  | _ => ret FreeMaxTokensPerRun
  end.

Definition GetTierName : M string :=
  l <- get ;;
  match LTier l with
  | EnterpriseTier => ret "Enterprise"
  | ProTier => ret "Pro"
  | _ => ret "Free"
  end.

Definition GetStatus : M string :=
  l <- get ;;
  if Tier_eqb (LTier l) EnterpriseTier then
    name <- GetTierName ;;
    ret ("License: " ++ name ++ " | Runs today: " ++ fmt_d (DailyRuns l)
           ++ " | Unlimited")
  else
    name <- GetTierName ;;
    tokens <- GetMaxTokens ;;
    ret ("License: " ++ name ++ " | Runs: " ++ fmt_d (DailyRuns l) ++ "/"
           ++ fmt_d (MaxRuns l) ++ " | Tokens/run: " ++ fmt_d tokens).

(** ** Sequences of calls *)

(** Consecutive calls of [CanRun], one per clock reading, on one licence. *)
Fixpoint runCalls (cs : list Clock) : M (list (bool * string)) :=
  match cs with
  | [] => ret []
  | c :: cs' =>
      r <- CanRun c ;;
      rs <- runCalls cs' ;;
      ret (r :: rs)
  end.

(** The operations a caller can invoke on the licence. *)
Inductive Op : Set :=
| OpCanRun (c : Clock)
| OpGetMaxTokens
| OpGetTierName
| OpGetStatus.

Definition exec (o : Op) (l : License) : License :=
  match o with
  | OpCanRun c => snd (CanRun c l)
  | OpGetMaxTokens => snd (GetMaxTokens l)
  | OpGetTierName => snd (GetTierName l)
  | OpGetStatus => snd (GetStatus l)
  end.

Definition execAll (os : list Op) (l : License) : License :=
  fold_left (fun l o => exec o l) os l.

(** The number of [CanRun] calls in a sequence of operations. *)
Definition countCanRun (os : list Op) : Z :=
  Z.of_nat (List.length
    (filter (fun o => match o with OpCanRun _ => true | _ => false end) os)).

(** ** The tier table as the specification words it *)

(** A limit is a number or the unbounded marker; the code writes the
    marker as -1. *)
Inductive Limit : Set := Bounded (n : Z) | Unbounded.

Definition limitOf (z : Z) : Limit :=
  if z =? -1 then Unbounded else Bounded z.

(** Specification side: a credential is well formed when it starts with
    the Pro or the Enterprise marker and has at least 20 characters. *)
Definition wellFormed_spec (cred : string) : bool :=
  (String.prefix "PRO_" cred || String.prefix "ENT_" cred)
  && (20 <=? String.length cred)%nat.

(** Specification side: rules 1 to 5 of tier resolution. *)
Definition resolveTier_spec (cred : string) : Tier :=
  if String.eqb cred "" then FreeTier
  else if negb (wellFormed_spec cred) then FreeTier
  else if String.prefix "PRO_" cred then ProTier
  else EnterpriseTier.

(** Specification side: the fixed table of limits per tier. *)
Definition tierLimits_spec (t : Tier) : Limit * Limit :=
  match t with
  | FreeTier => (Bounded 5, Bounded 1000)
  | ProTier => (Bounded 100, Bounded 10000)
  | EnterpriseTier => (Unbounded, Unbounded)
  end.

(** Code side: the triple a licence carries. *)
Definition limits (l : License) : Tier * Limit * Limit :=
  (LTier l, limitOf (MaxRuns l), limitOf (fst (GetMaxTokens l))).

(** ** Two goroutines calling [CanRun]

    Each statement of [CanRun] is one atomic step of the goroutine that
    executes it; [l.mu.Lock()] can only step while the mutex is free, and
    the deferred [l.mu.Unlock()] runs after the results are fixed. *)

Inductive pc : Set :=
| AtLock
| AtSince
| AtResetRuns
| AtResetTime
| AtTier
| AtEntIncr
| AtLimit
| AtIncr
| AtUnlock (r : bool * string)
| Returned (r : bool * string).

Record Shared : Set := mkShared { lic : License; mu : bool }.

Definition stepThread (c : Clock) (p : pc) (s : Shared)
  : option (pc * Shared) :=
  match p with
  | AtLock =>
      if mu s then None else Some (AtSince, mkShared (lic s) true)
  | AtSince =>
      Some (if resetDue c (lic s) then AtResetRuns else AtTier, s)
  | AtResetRuns =>
      Some (AtResetTime, mkShared (snd (setDailyRuns 0 (lic s))) (mu s))
  | AtResetTime =>
      Some (AtTier, mkShared (snd (setLastReset (tNow c) (lic s))) (mu s))
  | AtTier =>
      Some (if Tier_eqb (LTier (lic s)) EnterpriseTier
            then AtEntIncr else AtLimit, s)
  | AtEntIncr =>
      Some (AtUnlock (true, ""), mkShared (snd (incrDailyRuns (lic s))) (mu s))
  | AtLimit =>
      if DailyRuns (lic s) >=? MaxRuns (lic s)
      then Some (AtUnlock
                   (false, limitMessage (DailyRuns (lic s)) (MaxRuns (lic s))),
                 s)
      else Some (AtIncr, s)
  | AtIncr =>
      Some (AtUnlock (true, ""), mkShared (snd (incrDailyRuns (lic s))) (mu s))
  | AtUnlock r => Some (Returned r, mkShared (lic s) false)
  | Returned _ => None
  end.

Inductive Goroutine : Set := G1 | G2.

Record Config : Set := mkConfig { shared : Shared; g1 : pc; g2 : pc }.

(** The scheduler picks a goroutine; one that cannot step (waiting for the
    mutex, or returned) leaves the configuration as it is. *)
Definition stepConfig (c1 c2 : Clock) (g : Goroutine) (cfg : Config)
  : Config :=
  match g with
  | G1 =>
      match stepThread c1 (g1 cfg) (shared cfg) with
      | Some (p, s) => mkConfig s p (g2 cfg)
      | None => cfg
      end
  | G2 =>
      match stepThread c2 (g2 cfg) (shared cfg) with
      | Some (p, s) => mkConfig s (g1 cfg) p
      | None => cfg
      end
  end.

Definition runSchedule (c1 c2 : Clock) (sched : list Goroutine)
  (cfg : Config) : Config :=
  fold_left (fun cfg g => stepConfig c1 c2 g cfg) sched cfg.

(** Both goroutines about to call [CanRun] on the licence [l]. *)
Definition spawn (l : License) : Config :=
  mkConfig (mkShared l false) AtLock AtLock.

Definition allowed (r : bool * string) : bool := fst r.

(** ** Derived notions used in the statements *)

(** The licence as [CanRun] leaves it after its first statement. *)
Definition afterReset (c : Clock) (l : License) : License :=
  if resetDue c l
  then mkLicense (LTier l) (Key l) 0 (MaxRuns l) (tNow c)
  else l.

(** The statements of [CanRun] that follow the reset: the Enterprise
    branch, the limit check and the increment. *)
Definition checkAndConsume : M (bool * string) :=
  l <- get ;;
  if Tier_eqb (LTier l) EnterpriseTier then
    incrDailyRuns ;; ret (true, "")
  else if DailyRuns l >=? MaxRuns l then
    ret (false, limitMessage (DailyRuns l) (MaxRuns l))
  else
    incrDailyRuns ;; ret (true, "").

(** The denial at usage [m] of limit [m]. *)
Definition deniedAt (m : Z) : bool * string := (false, limitMessage m m).

(** The calls of a sequence all fall in the period that started at [t0]:
    none of them finds more than 24 hours elapsed. *)
Definition withinPeriod (t0 : Time) (cs : list Clock) : Prop :=
  Forall (fun c => tSince c - t0 <= 24 * Hour) cs.

(** ** The invariant of two callers sharing one remaining slot *)

(** The slot a goroutine has taken: 1 once its increment is done. *)
Definition used (p : pc) : Z :=
  match p with
  | AtUnlock (true, _) | Returned (true, _) => 1
  | _ => 0
  end.

(** Between [Lock] and [Unlock]. *)
Definition inCS (p : pc) : bool :=
  match p with
  | AtLock | Returned _ => false
  | _ => true
  end.

(** What is known of a goroutine at [p], the other one being at [other],
    when the licence [l0] had one slot left and no reset is due. *)
Definition okPc (l0 : License) (p other : pc) : Prop :=
  match p with
  | AtLock | AtSince | AtTier | AtLimit => True
  | AtResetRuns | AtResetTime | AtEntIncr => False
  | AtIncr => used other = 0
  | AtUnlock r | Returned r =>
      r = (true, "") \/ (r = deniedAt (MaxRuns l0) /\ used other = 1)
  end.

Definition quotaInv (l0 : License) (cfg : Config) : Prop :=
  LTier (lic (shared cfg)) = LTier l0 /\
  Key (lic (shared cfg)) = Key l0 /\
  MaxRuns (lic (shared cfg)) = MaxRuns l0 /\
  LastReset (lic (shared cfg)) = LastReset l0 /\
  DailyRuns (lic (shared cfg))
  = DailyRuns l0 + used (g1 cfg) + used (g2 cfg) /\
  mu (shared cfg) = (inCS (g1 cfg) || inCS (g2 cfg)) /\
  inCS (g1 cfg) && inCS (g2 cfg) = false /\
  used (g1 cfg) + used (g2 cfg) <= 1 /\
  okPc l0 (g1 cfg) (g2 cfg) /\
  okPc l0 (g2 cfg) (g1 cfg).

(** The statements a goroutine still has to execute, at most. *)
Definition stepsLeft (p : pc) : nat :=
  match p with
  | AtLock => 8
  | AtSince => 7
  | AtResetRuns => 6
  | AtResetTime => 5
  | AtTier => 4
  | AtLimit => 3
  | AtEntIncr => 2
  | AtIncr => 2
  | AtUnlock _ => 1
  | Returned _ => 0
  end.

Definition workLeft (cfg : Config) : nat :=
  (stepsLeft (g1 cfg) + stepsLeft (g2 cfg))%nat.

(** ** Accesses to the package-level licence *)

(** The two entry points that hand out [currentLicense]. *)
Inductive Access : Set := ViaInitialize | ViaGetLicense.

Definition access (a : Access) (env : string) (now : Time) (p : Process)
  : option License * Process :=
  match a with
  | ViaInitialize => Initialize env now p
  | ViaGetLicense => GetLicense env now p
  end.

(** Consecutive accesses, each with the value LICENSE_KEY has and the
    clock reading at that moment. *)
Fixpoint accesses (xs : list (Access * string * Time)) (p : Process)
  : list (option License) * Process :=
  match xs with
  | [] => ([], p)
  | (a, env, now) :: xs' =>
      let (r, p1) := access a env now p in
      let (rs, p2) := accesses xs' p1 in
      (r :: rs, p2)
  end.

(** The second clock reading of a call is not earlier than the first. *)
Definition monotoneReading (o : Op) : Prop :=
  match o with
  | OpCanRun c => tSince c <= tNow c
  | _ => True
  end.

(** ** What a goroutine inside the critical section still computes *)

(** The result and the licence a goroutine at [p] produces from the
    licence [l] when it runs on to its [Unlock]; [None] outside the
    critical section. *)
Definition rest (c : Clock) (p : pc) (l : License)
  : option ((bool * string) * License) :=
  match p with
  | AtLock | Returned _ => None
  | AtSince => Some (CanRun c l)
  | AtResetRuns =>
      Some (checkAndConsume
              (snd (setLastReset (tNow c) (snd (setDailyRuns 0 l)))))
  | AtResetTime => Some (checkAndConsume (snd (setLastReset (tNow c) l)))
  | AtTier => Some (checkAndConsume l)
  | AtEntIncr | AtIncr => Some ((true, ""), snd (incrDailyRuns l))
  | AtLimit =>
      Some (if DailyRuns l >=? MaxRuns l
            then ((false, limitMessage (DailyRuns l) (MaxRuns l)), l)
            else ((true, ""), snd (incrDailyRuns l)))
  | AtUnlock r => Some (r, l)
  end.

(** The goroutine with clock [ca] at [pa] took the mutex first; the one
    with clock [cb] at [pb] follows it. *)
Definition order (ca cb : Clock) (l0 l : License) (m : bool) (pa pb : pc)
  : Prop :=
  (pb = AtLock /\ m = true /\ rest ca pa l = Some (CanRun ca l0))
  \/ (exists ra, pa = Returned ra /\ pb = AtLock /\ m = false
                 /\ CanRun ca l0 = (ra, l))
  \/ (exists ra la, pa = Returned ra /\ m = true
                    /\ CanRun ca l0 = (ra, la)
                    /\ rest cb pb l = Some (CanRun cb la))
  \/ (exists ra la rb, pa = Returned ra /\ pb = Returned rb /\ m = false
                       /\ CanRun ca l0 = (ra, la)
                       /\ CanRun cb la = (rb, l)).

(** Every configuration is a stage of one of the two sequential orders. *)
Definition serialInv (c1 c2 : Clock) (l0 : License) (cfg : Config) : Prop :=
  (g1 cfg = AtLock /\ g2 cfg = AtLock /\ mu (shared cfg) = false
   /\ lic (shared cfg) = l0)
  \/ order c1 c2 l0 (lic (shared cfg)) (mu (shared cfg)) (g1 cfg) (g2 cfg)
  \/ order c2 c1 l0 (lic (shared cfg)) (mu (shared cfg)) (g2 cfg) (g1 cfg).

(** The mutex is held exactly while one goroutine is in the critical
    section, and the two are never in it together. *)
Definition mutexInv (cfg : Config) : Prop :=
  mu (shared cfg) = (inCS (g1 cfg) || inCS (g2 cfg))
  /\ inCS (g1 cfg) && inCS (g2 cfg) = false.

(** ** A goroutine calling [GetStatus] beside one calling [CanRun] *)

(** The statements of [GetStatus]: [l.mu.Lock()], the formatting of the
    status line, the deferred [l.mu.Unlock()]. *)
Inductive spc : Set :=
| SAtLock
| SAtFormat
| SAtUnlock (x : string)
| SReturned (x : string).

Definition stepStatus (p : spc) (s : Shared) : option (spc * Shared) :=
  match p with
  | SAtLock =>
      if mu s then None else Some (SAtFormat, mkShared (lic s) true)
  | SAtFormat =>
      Some (SAtUnlock (fst (GetStatus (lic s))),
            mkShared (snd (GetStatus (lic s))) (mu s))
  | SAtUnlock x => Some (SReturned x, mkShared (lic s) false)
  | SReturned _ => None
  end.

Inductive Party : Set := Runner | Reader.

Record StatusConfig : Set :=
  mkStatusConfig { sshared : Shared; runner : pc; reader : spc }.

Definition stepStatusConfig (c : Clock) (w : Party) (cfg : StatusConfig)
  : StatusConfig :=
  match w with
  | Runner =>
      match stepThread c (runner cfg) (sshared cfg) with
      | Some (p, s) => mkStatusConfig s p (reader cfg)
      | None => cfg
      end
  | Reader =>
      match stepStatus (reader cfg) (sshared cfg) with
      | Some (p, s) => mkStatusConfig s (runner cfg) p
      | None => cfg
      end
  end.

Definition runStatusSchedule (c : Clock) (sched : list Party)
  (cfg : StatusConfig) : StatusConfig :=
  fold_left (fun cfg w => stepStatusConfig c w cfg) sched cfg.

Definition spawnStatus (l : License) : StatusConfig :=
  mkStatusConfig (mkShared l false) AtLock SAtLock.

(** Where the reader can be once it holds, or has held, the mutex on the
    licence [l]. *)
Definition readerAt (l : License) (m : bool) (p : spc) : Prop :=
  (p = SAtFormat /\ m = true)
  \/ (p = SAtUnlock (fst (GetStatus l)) /\ m = true)
  \/ (p = SReturned (fst (GetStatus l)) /\ m = false).

Definition statusInv (c : Clock) (l0 : License) (cfg : StatusConfig)
  : Prop :=
  let l := lic (sshared cfg) in
  let m := mu (sshared cfg) in
  (runner cfg = AtLock /\ reader cfg = SAtLock /\ m = false /\ l = l0)
  \/ (reader cfg = SAtLock /\ m = true
      /\ rest c (runner cfg) l = Some (CanRun c l0))
  \/ (exists r, runner cfg = Returned r /\ CanRun c l0 = (r, l)
                /\ ((reader cfg = SAtLock /\ m = false)
                    \/ readerAt l m (reader cfg)))
  \/ (runner cfg = AtLock /\ l = l0 /\ readerAt l0 m (reader cfg))
  \/ (reader cfg = SReturned (fst (GetStatus l0)) /\ m = true
      /\ rest c (runner cfg) l = Some (CanRun c l0))
  \/ (exists r, runner cfg = Returned r /\ CanRun c l0 = (r, l)
                /\ reader cfg = SReturned (fst (GetStatus l0))
                /\ m = false).

Definition statusStepsLeft (p : spc) : nat :=
  match p with
  | SAtLock => 3
  | SAtFormat => 2
  | SAtUnlock _ => 1
  | SReturned _ => 0
  end.

Definition statusWorkLeft (cfg : StatusConfig) : nat :=
  (stepsLeft (runner cfg) + statusStepsLeft (reader cfg))%nat.

(** * Properties *)

(** ** Evaluation on the cases of the package's tests *)

Example fmt_d_examples :
  fmt_d 0 = "0" /\ fmt_d 100 = "100" /\ fmt_d (-1) = "-1".
Proof. repeat split; reflexivity. Qed.

Example CanRun_fresh_free :
  CanRun (mkClock 10 10) (newLicense "" 0)
  = ((true, ""), mkLicense FreeTier "" 1 5 0).
Proof. reflexivity. Qed.

Example GetStatus_fresh_free :
  fst (GetStatus (newLicense "" 0)) = "License: Free | Runs: 0/5 | Tokens/run: 1000".
Proof. reflexivity. Qed.

(** ** Arithmetic of the embedding *)

Lemma wrap_int_small z : in_int z -> wrap_int z = z.
Proof.
  unfold in_int, wrap_int, min_int, max_int. intros H.
  rewrite Z.mod_small; lia.
Qed.

Lemma wrap_int_max : wrap_int (max_int + 1) = min_int.
Proof. reflexivity. Qed.

(** Saturation never changes the comparison with 24 hours. *)
Lemma Since_gt_day now t :
  (Since now t >? 24 * Hour) = (now - t >? 24 * Hour).
Proof.
  unfold Since, maxDuration, minDuration, max_int, min_int, Hour.
  destruct (Z.gtb_spec (now - t) (24 * (3600 * 1000000000)));
    destruct (Z.gtb_spec
      (Z.max (-9223372036854775808) (Z.min 9223372036854775807 (now - t)))
      (24 * (3600 * 1000000000))); try reflexivity; lia.
Qed.

Lemma resetDue_true c l :
  resetDue c l = true <-> tSince c - LastReset l > 24 * Hour.
Proof.
  unfold resetDue. rewrite Since_gt_day.
  destruct (Z.gtb_spec (tSince c - LastReset l) (24 * Hour)); split;
    intros; try lia; congruence.
Qed.

Lemma resetDue_false c l :
  resetDue c l = false <-> tSince c - LastReset l <= 24 * Hour.
Proof.
  unfold resetDue. rewrite Since_gt_day.
  destruct (Z.gtb_spec (tSince c - LastReset l) (24 * Hour)); split;
    intros; try lia; congruence.
Qed.

(** ** Equations of [CanRun] *)

Lemma CanRun_split c l : CanRun c l = checkAndConsume (afterReset c l).
Proof.
  unfold CanRun, checkAndConsume, afterReset, bind, get.
  destruct (resetDue c l); reflexivity.
Qed.

Lemma checkAndConsume_enterprise l :
  LTier l = EnterpriseTier ->
  checkAndConsume l =
    ((true, ""),
     mkLicense (LTier l) (Key l) (wrap_int (DailyRuns l + 1))
       (MaxRuns l) (LastReset l)).
Proof.
  intros H. destruct l; simpl in *; subst. reflexivity.
Qed.

Lemma checkAndConsume_denied l :
  LTier l <> EnterpriseTier -> MaxRuns l <= DailyRuns l ->
  checkAndConsume l =
    ((false, limitMessage (DailyRuns l) (MaxRuns l)), l).
Proof.
  intros Ht Hd. destruct l as [t k d m r]; simpl in *.
  unfold checkAndConsume, bind, get, ret; simpl.
  destruct t; try congruence; simpl;
    destruct (Z.geb_spec d m); try lia; reflexivity.
Qed.

Lemma checkAndConsume_allowed l :
  LTier l <> EnterpriseTier -> DailyRuns l < MaxRuns l ->
  checkAndConsume l =
    ((true, ""),
     mkLicense (LTier l) (Key l) (wrap_int (DailyRuns l + 1))
       (MaxRuns l) (LastReset l)).
Proof.
  intros Ht Hd. destruct l as [t k d m r]; simpl in *.
  unfold checkAndConsume, bind, get, ret; simpl.
  destruct t; try congruence; simpl;
    destruct (Z.geb_spec d m); try lia; reflexivity.
Qed.

(** The three fields fixed at initialisation, through one call. *)
Lemma checkAndConsume_frame l :
  let l' := snd (checkAndConsume l) in
  LTier l' = LTier l /\ Key l' = Key l /\ MaxRuns l' = MaxRuns l
  /\ LastReset l' = LastReset l.
Proof.
  unfold checkAndConsume, bind, get, ret.
  destruct (Tier_eqb (LTier l) EnterpriseTier); simpl; auto.
  destruct (DailyRuns l >=? MaxRuns l); simpl; auto.
Qed.

Lemma afterReset_frame c l :
  LTier (afterReset c l) = LTier l /\ Key (afterReset c l) = Key l
  /\ MaxRuns (afterReset c l) = MaxRuns l.
Proof. unfold afterReset. destruct (resetDue c l); simpl; auto. Qed.

Lemma GetMaxTokens_state l : snd (GetMaxTokens l) = l.
Proof. unfold GetMaxTokens, bind, get, ret. destruct (LTier l); reflexivity. Qed.

Lemma GetTierName_state l : snd (GetTierName l) = l.
Proof. unfold GetTierName, bind, get, ret. destruct (LTier l); reflexivity. Qed.

Lemma GetStatus_state l : snd (GetStatus l) = l.
Proof.
  destruct l as [t k d m r]. destruct t; reflexivity.
Qed.

Lemma CanRun_frame c l :
  let l' := snd (CanRun c l) in
  LTier l' = LTier l /\ Key l' = Key l /\ MaxRuns l' = MaxRuns l.
Proof.
  cbv zeta. rewrite CanRun_split.
  destruct (checkAndConsume_frame (afterReset c l)) as (Ht & Hk & Hm & _).
  destruct (afterReset_frame c l) as (Ht' & Hk' & Hm').
  cbv zeta in *. repeat split; congruence.
Qed.

Lemma exec_frame o l :
  LTier (exec o l) = LTier l /\ Key (exec o l) = Key l
  /\ MaxRuns (exec o l) = MaxRuns l.
Proof.
  destruct o; simpl.
  - apply CanRun_frame.
  - rewrite GetMaxTokens_state; auto.
  - rewrite GetTierName_state; auto.
  - rewrite GetStatus_state; auto.
Qed.

Lemma execAll_frame os : forall l,
  LTier (execAll os l) = LTier l /\ Key (execAll os l) = Key l
  /\ MaxRuns (execAll os l) = MaxRuns l.
Proof.
  induction os as [|o os IH]; intros l; simpl; auto.
  destruct (IH (exec o l)) as (Ht & Hk & Hm).
  destruct (exec_frame o l) as (Ht' & Hk' & Hm').
  unfold execAll in *. repeat split; congruence.
Qed.

(** ** Tier resolution *)

Lemma markers_exclusive key :
  HasPrefix key "PRO_" = true -> HasPrefix key "ENT_" = false.
Proof.
  unfold HasPrefix. destruct key as [|a k]; [discriminate|].
  cbn [String.prefix].
  destruct (ascii_dec "P" a) as [<-|]; [intros _|discriminate].
  destruct (ascii_dec "E" "P"); [discriminate|reflexivity].
Qed.

Lemma length_leb key :
  (20 <=? Z.of_nat (String.length key)) = (20 <=? String.length key)%nat.
Proof.
  destruct (Z.leb_spec 20 (Z.of_nat (String.length key)));
    destruct (Nat.leb_spec 20 (String.length key)); try reflexivity; lia.
Qed.

Lemma validateKey_wellFormed key : validateKey key = wellFormed_spec key.
Proof.
  unfold validateKey, wellFormed_spec, HasPrefix. rewrite length_leb.
  destruct (String.prefix "PRO_" key), (String.prefix "ENT_" key),
    (20 <=? String.length key)%nat; reflexivity.
Qed.

Lemma validateKey_iff key :
  validateKey key = true <->
  (HasPrefix key "PRO_" = true \/ HasPrefix key "ENT_" = true)
  /\ (20 <= String.length key)%nat.
Proof.
  rewrite validateKey_wellFormed. unfold wellFormed_spec, HasPrefix.
  rewrite Bool.andb_true_iff, Bool.orb_true_iff, Nat.leb_le. tauto.
Qed.

(** The tier and limits [Initialize] assigns are those of the rules and of
    the table of the specification. *)
Lemma newLicense_limits key now :
  limits (newLicense key now)
  = (resolveTier_spec key,
     fst (tierLimits_spec (resolveTier_spec key)),
     snd (tierLimits_spec (resolveTier_spec key))).
Proof.
  unfold newLicense, initLicense, resolveTier_spec.
  rewrite <- validateKey_wellFormed.
  destruct (String.eqb key ""); [reflexivity|].
  destruct (validateKey key) eqn:Hv; simpl; [|reflexivity].
  apply validateKey_iff in Hv. destruct Hv as ([Hp | He] & _).
  - rewrite (markers_exclusive _ Hp). unfold HasPrefix in Hp. rewrite Hp.
    reflexivity.
  - rewrite He. unfold HasPrefix in He.
    destruct (String.prefix "PRO_" key) eqn:Hp.
    + apply markers_exclusive in Hp. unfold HasPrefix in Hp. congruence.
    + reflexivity.
Qed.

Lemma Initialize_first key now p :
  once p = false ->
  fst (Initialize key now p) = Some (newLicense key now).
Proof.
  intros H. unfold Initialize, newLicense. rewrite H.
  destruct (initLicense key now); reflexivity.
Qed.

(** C5.  Tier resolution on the credentials of the specification: the
    empty credential resolves to Free; "PRO_1234567890123456", of exactly
    20 characters, is valid and resolves to Pro; "PRO_123" is invalid and
    resolves to Free; "ENT_1234567890123456" is valid and resolves to
    Enterprise; "FREE_1234567890123456" is invalid and resolves to Free.
    In general a credential is valid exactly when it starts with "PRO_" or
    "ENT_" and has at least 20 characters. *)
Theorem C5_tier_resolution :
  (forall now,
     validateKey "" = false /\
     option_map LTier (fst (Initialize "" now startup)) = Some FreeTier) /\
  (forall now,
     validateKey "PRO_1234567890123456" = true /\
     String.length "PRO_1234567890123456" = 20%nat /\
     option_map LTier (fst (Initialize "PRO_1234567890123456" now startup))
     = Some ProTier) /\
  (forall now,
     validateKey "PRO_123" = false /\
     option_map LTier (fst (Initialize "PRO_123" now startup))
     = Some FreeTier) /\
  (forall now,
     validateKey "ENT_1234567890123456" = true /\
     option_map LTier (fst (Initialize "ENT_1234567890123456" now startup))
     = Some EnterpriseTier) /\
  (forall now,
     validateKey "FREE_1234567890123456" = false /\
     option_map LTier (fst (Initialize "FREE_1234567890123456" now startup))
     = Some FreeTier) /\
  (forall key,
     validateKey key = true <->
     (HasPrefix key "PRO_" = true \/ HasPrefix key "ENT_" = true)
     /\ (20 <= String.length key)%nat).
Proof.
  repeat split; try reflexivity; apply validateKey_iff; assumption.
Qed.

(** C6.  [GetMaxTokens] is a pure read: it leaves the licence, and so the
    run counter, as it found them, and returns the fixed token limit of the
    tier: 1000 for Free, 10000 for Pro and the unbounded marker, -1, for
    Enterprise. *)
Theorem C6_GetMaxTokens_pure_read :
  forall l : License,
    snd (GetMaxTokens l) = l /\
    fst (GetMaxTokens l)
    = match LTier l with
      | FreeTier => 1000
      | ProTier => 10000
      | EnterpriseTier => -1
      end /\
    limitOf (fst (GetMaxTokens l)) = snd (tierLimits_spec (LTier l)).
Proof.
  intros l. split; [apply GetMaxTokens_state|].
  unfold GetMaxTokens, bind, get, ret. destruct (LTier l); split; reflexivity.
Qed.

(** C9.  Tier resolution is deterministic and does not depend on the
    state it starts from: for every credential, two resolutions, at any
    two clock readings and from any two processes not yet initialised,
    yield the same triple of tier, run limit and token limit, namely the
    one the rules and the table of the specification give. *)
Theorem C9_resolution_deterministic :
  forall (key : string) (now1 now2 : Time) (p1 p2 : Process),
    once p1 = false -> once p2 = false ->
    option_map limits (fst (Initialize key now1 p1))
    = option_map limits (fst (Initialize key now2 p2))
    /\ option_map limits (fst (Initialize key now1 p1))
       = Some (resolveTier_spec key,
               fst (tierLimits_spec (resolveTier_spec key)),
               snd (tierLimits_spec (resolveTier_spec key))).
Proof.
  intros key now1 now2 p1 p2 H1 H2.
  rewrite (Initialize_first key now1 p1 H1), (Initialize_first key now2 p2 H2).
  simpl. rewrite !newLicense_limits. split; reflexivity.
Qed.

Lemma C9_resolution_deterministic_witness :
  option_map limits
    (fst (Initialize "PRO_1234567890123456" 0 startup))
  = option_map limits
      (fst (Initialize "PRO_1234567890123456" 7
              (mkProcess None false [FreeTierBanner])))
  /\ option_map limits (fst (Initialize "PRO_1234567890123456" 0 startup))
     = Some (ProTier, Bounded 100, Bounded 10000).
Proof.
  exact (C9_resolution_deterministic "PRO_1234567890123456" 0 7 startup
           (mkProcess None false [FreeTierBanner]) eq_refl eq_refl).
Defined.

(** C10.  After initialisation no operation modifies the fields Tier, Key
    and MaxRuns: [CanRun] changes at most DailyRuns and LastReset, and
    [GetStatus], [GetMaxTokens] and [GetTierName] change no field. *)
Theorem C10_frame :
  (forall c l,
     LTier (snd (CanRun c l)) = LTier l /\
     Key (snd (CanRun c l)) = Key l /\
     MaxRuns (snd (CanRun c l)) = MaxRuns l) /\
  (forall l, snd (GetStatus l) = l) /\
  (forall l, snd (GetMaxTokens l) = l) /\
  (forall l, snd (GetTierName l) = l) /\
  (forall key now os,
     LTier (execAll os (newLicense key now)) = LTier (newLicense key now) /\
     Key (execAll os (newLicense key now)) = key /\
     MaxRuns (execAll os (newLicense key now))
     = MaxRuns (newLicense key now)).
Proof.
  split; [intros c l; apply CanRun_frame|].
  split; [apply GetStatus_state|].
  split; [apply GetMaxTokens_state|].
  split; [apply GetTierName_state|].
  intros key now os.
  destruct (execAll_frame os (newLicense key now)) as (Ht & Hk & Hm).
  repeat split; try assumption.
  rewrite Hk. unfold newLicense, initLicense.
  destruct (String.eqb key ""); [reflexivity|].
  destruct (validateKey key); [|reflexivity].
  destruct (HasPrefix key "ENT_"); reflexivity.
Qed.

(** ** The daily reset *)

Lemma CanRun_no_reset c l :
  tSince c - LastReset l <= 24 * Hour -> CanRun c l = checkAndConsume l.
Proof.
  intros H. rewrite CanRun_split. unfold afterReset.
  apply resetDue_false in H. rewrite H. reflexivity.
Qed.

Lemma CanRun_reset c l :
  tSince c - LastReset l > 24 * Hour ->
  CanRun c l
  = checkAndConsume (mkLicense (LTier l) (Key l) 0 (MaxRuns l) (tNow c)).
Proof.
  intros H. rewrite CanRun_split. unfold afterReset.
  apply resetDue_true in H. rewrite H. reflexivity.
Qed.

(** C1.  [GetStatus] has no reset of its own and prints the stored
    counter.  A Free licence that used its five runs, read more than 24
    hours after the period started, is reported as "Runs: 5/5", while the
    call of [CanRun] at that same instant observes the counter at 0 after
    its reset and is allowed. *)
Theorem C1_GetStatus_reports_stale_counter :
  let l := snd (runCalls (repeat (mkClock Hour Hour) 5) (newLicense "" 0)) in
  let c := mkClock (25 * Hour) (25 * Hour) in
  l = mkLicense FreeTier "" 5 5 0 /\
  tSince c - LastReset l >= 24 * Hour /\
  fst (GetStatus l) = "License: Free | Runs: 5/5 | Tokens/run: 1000" /\
  DailyRuns (afterReset c (snd (GetStatus l))) = 0 /\
  CanRun c (snd (GetStatus l))
  = ((true, ""), mkLicense FreeTier "" 1 5 (25 * Hour)).
Proof.
  cbv zeta. repeat split; try reflexivity. vm_compute. discriminate.
Qed.

(** C2, as stated, fails when exactly 24 hours have elapsed: [CanRun]
    compares with [>], so the exhausted Free licence is not reset and the
    call is denied. *)
Lemma C2_no_reset_at_exactly_24h :
  let l := mkLicense FreeTier "" 5 5 0 in
  let c := mkClock (24 * Hour) (24 * Hour) in
  tSince c - LastReset l >= 24 * Hour /\
  CanRun c l
  = ((false,
      "Daily limit reached (5/5 runs). Upgrade at https://bakerstreetproject221B.store/pricing"),
     l) /\
  DailyRuns (snd (CanRun c l)) <> 0 /\
  LastReset (snd (CanRun c l)) <> tNow c /\
  CanRun c l
  <> checkAndConsume (mkLicense (LTier l) (Key l) 0 (MaxRuns l) (tNow c)).
Proof.
  cbv zeta. repeat split; try reflexivity; vm_compute; discriminate.
Qed.

(** C2, amended.  In every state and for every call of [CanRun], if more
    than 24 hours have elapsed since the period start, then the limit
    check runs on the licence with the counter at 0 and the period start
    at the current time: the period start of the result is the current
    time and the counter is 1 after an allowed call, 0 after a denied
    one. *)
Theorem C2_reset_when_more_than_24h :
  forall (c : Clock) (l : License),
    tSince c - LastReset l > 24 * Hour ->
    CanRun c l
    = checkAndConsume (mkLicense (LTier l) (Key l) 0 (MaxRuns l) (tNow c))
    /\ LastReset (snd (CanRun c l)) = tNow c
    /\ DailyRuns (snd (CanRun c l))
       = (if fst (fst (CanRun c l)) then 1 else 0).
Proof.
  intros c l H. rewrite (CanRun_reset c l H).
  split; [reflexivity|].
  destruct l as [t k d m r]; simpl.
  destruct t; unfold checkAndConsume, bind, get, ret; simpl;
    try destruct (0 >=? m); simpl; split; reflexivity.
Qed.

Lemma C2_reset_when_more_than_24h_witness :
  25 * Hour - 0 > 24 * Hour /\
  (CanRun (mkClock (25 * Hour) (26 * Hour)) (mkLicense FreeTier "" 5 5 0)
   = checkAndConsume (mkLicense FreeTier "" 0 5 (26 * Hour))
   /\ LastReset (snd (CanRun (mkClock (25 * Hour) (26 * Hour))
                        (mkLicense FreeTier "" 5 5 0))) = 26 * Hour
   /\ DailyRuns (snd (CanRun (mkClock (25 * Hour) (26 * Hour))
                        (mkLicense FreeTier "" 5 5 0)))
      = (if fst (fst (CanRun (mkClock (25 * Hour) (26 * Hour))
                        (mkLicense FreeTier "" 5 5 0))) then 1 else 0)).
Proof.
  split; [reflexivity|].
  apply (C2_reset_when_more_than_24h (mkClock (25 * Hour) (26 * Hour))
           (mkLicense FreeTier "" 5 5 0)).
  reflexivity.
Defined.

(** ** Consecutive calls *)

Lemma runCalls_cons c cs l :
  fst (runCalls (c :: cs) l)
  = fst (CanRun c l) :: fst (runCalls cs (snd (CanRun c l)))
  /\ snd (runCalls (c :: cs) l) = snd (runCalls cs (snd (CanRun c l))).
Proof.
  simpl. unfold bind, ret.
  destruct (CanRun c l) as [r l1]. simpl.
  destruct (runCalls cs l1) as [rs l2]. split; reflexivity.
Qed.

Lemma runCalls_length cs : forall l,
  List.length (fst (runCalls cs l)) = List.length cs.
Proof.
  induction cs as [|c cs IH]; intros l; [reflexivity|].
  destruct (runCalls_cons c cs l) as [-> _]. simpl. now rewrite IH.
Qed.

Lemma withinPeriod_firstn t0 n cs :
  withinPeriod t0 cs -> withinPeriod t0 (firstn n cs).
Proof.
  unfold withinPeriod. intros H.
  rewrite <- (firstn_skipn n cs) in H. apply Forall_app in H. tauto.
Qed.

(** A bounded tier inside one period: the calls are allowed while the
    counter is below the limit, denied from then on, and the counter stops
    at the limit. *)
Lemma runCalls_bounded cs : forall t k d m r,
  t <> EnterpriseTier -> 0 <= d <= m -> m <= max_int ->
  withinPeriod r cs ->
  snd (runCalls cs (mkLicense t k d m r))
  = mkLicense t k (Z.min m (d + Z.of_nat (List.length cs))) m r
  /\ forall i x,
       nth_error (fst (runCalls cs (mkLicense t k d m r))) i = Some x ->
       x = if d + Z.of_nat i <? m then (true, "") else deniedAt m.
Proof.
  induction cs as [|c cs IH]; intros t k d m r Ht Hd Hm Hw.
  - simpl. split.
    + f_equal. lia.
    + intros [|i] x; discriminate.
  - inversion Hw as [|c' cs' Hc Hw']; subst.
    destruct (runCalls_cons c cs (mkLicense t k d m r)) as [-> ->].
    rewrite (CanRun_no_reset c (mkLicense t k d m r) Hc).
    destruct (Z.lt_ge_cases d m) as [Hlt | Hge].
    + rewrite checkAndConsume_allowed by (simpl; auto). simpl.
      rewrite wrap_int_small
        by (unfold in_int, min_int, max_int in *; lia).
      destruct (IH t k (d + 1) m r Ht ltac:(lia) Hm Hw') as [Hs Hn].
      split.
      * rewrite Hs. f_equal. lia.
      * intros [|i] x Hx; simpl in Hx.
        -- injection Hx as <-. rewrite Z.add_0_r.
           destruct (Z.ltb_spec d m); [reflexivity|lia].
        -- apply Hn in Hx. rewrite Hx.
           replace (d + 1 + Z.of_nat i) with (d + Z.of_nat (S i)) by lia.
           reflexivity.
    + assert (d = m) by lia. subst d.
      rewrite checkAndConsume_denied by (simpl; auto; lia). simpl.
      destruct (IH t k m m r Ht ltac:(lia) Hm Hw') as [Hs Hn].
      split.
      * rewrite Hs. f_equal. lia.
      * intros [|i] x Hx; simpl in Hx.
        -- injection Hx as <-.
           destruct (Z.ltb_spec (m + Z.of_nat 0) m); [lia|reflexivity].
        -- apply Hn in Hx. rewrite Hx.
           destruct (Z.ltb_spec (m + Z.of_nat i) m);
             destruct (Z.ltb_spec (m + Z.of_nat (S i)) m);
             try reflexivity; lia.
Qed.

Lemma newLicense_free key t0 :
  LTier (newLicense key t0) = FreeTier ->
  newLicense key t0 = mkLicense FreeTier key 0 5 t0.
Proof.
  unfold newLicense, initLicense.
  destruct (String.eqb key ""); [reflexivity|].
  destruct (validateKey key); [|reflexivity].
  destruct (HasPrefix key "ENT_"); discriminate.
Qed.

Lemma newLicense_enterprise key t0 :
  LTier (newLicense key t0) = EnterpriseTier ->
  newLicense key t0 = mkLicense EnterpriseTier key 0 (-1) t0.
Proof.
  unfold newLicense, initLicense.
  destruct (String.eqb key ""); [discriminate|].
  destruct (validateKey key); [|discriminate].
  destruct (HasPrefix key "ENT_"); [reflexivity|discriminate].
Qed.

(** C3.  On a freshly initialised Free licence, with all calls inside one
    period: every call returns; the first five are allowed and each raises
    the counter by one; the sixth and all later ones are denied with the
    message that gives the usage 5, the limit 5 and the upgrade address;
    the counter stays at 5 through the denied calls. *)
Theorem C3_free_tier_exhaustion :
  forall (key : string) (t0 : Time) (cs : list Clock),
    LTier (newLicense key t0) = FreeTier ->
    withinPeriod t0 cs ->
    List.length (fst (runCalls cs (newLicense key t0))) = List.length cs
    /\ (forall i x,
          nth_error (fst (runCalls cs (newLicense key t0))) i = Some x ->
          x = if Z.of_nat i <? 5 then (true, "")
              else (false,
                    "Daily limit reached (5/5 runs). Upgrade at https://bakerstreetproject221B.store/pricing"))
    /\ (forall n,
          DailyRuns (snd (runCalls (firstn n cs) (newLicense key t0)))
          = Z.min 5 (Z.of_nat (List.length (firstn n cs)))).
Proof.
  intros key t0 cs Hf Hw. rewrite (newLicense_free key t0 Hf).
  split; [apply runCalls_length|]. split.
  - intros i x Hx.
    destruct (runCalls_bounded cs FreeTier key 0 5 t0) as [_ Hn];
      try assumption; try discriminate; try (unfold max_int; lia).
    apply Hn in Hx. exact Hx.
  - intros n.
    destruct (runCalls_bounded (firstn n cs) FreeTier key 0 5 t0) as [Hs _];
      try discriminate; try (unfold max_int; lia).
    + apply withinPeriod_firstn; assumption.
    + rewrite Hs. reflexivity.
Qed.

Lemma withinPeriod_repeat t0 c n :
  tSince c - t0 <= 24 * Hour -> withinPeriod t0 (repeat c n).
Proof.
  intros H. apply Forall_forall. intros x Hx.
  apply repeat_spec in Hx. subst x. exact H.
Qed.

Lemma C3_free_tier_exhaustion_witness :
  List.length (fst (runCalls (repeat (mkClock Hour Hour) 7) (newLicense "" 0)))
  = 7%nat
  /\ (forall i x,
        nth_error
          (fst (runCalls (repeat (mkClock Hour Hour) 7) (newLicense "" 0))) i
        = Some x ->
        x = if Z.of_nat i <? 5 then (true, "")
            else (false,
                  "Daily limit reached (5/5 runs). Upgrade at https://bakerstreetproject221B.store/pricing"))
  /\ (forall n,
        DailyRuns
          (snd (runCalls (firstn n (repeat (mkClock Hour Hour) 7))
                  (newLicense "" 0)))
        = Z.min 5
            (Z.of_nat
               (List.length (firstn n (repeat (mkClock Hour Hour) 7))))).
Proof.
  apply (C3_free_tier_exhaustion "" 0 (repeat (mkClock Hour Hour) 7)).
  - reflexivity.
  - apply withinPeriod_repeat. vm_compute. discriminate.
Defined.

(** ** The Enterprise tier *)

Lemma CanRun_enterprise c l :
  LTier l = EnterpriseTier ->
  CanRun c l
  = ((true, ""),
     mkLicense EnterpriseTier (Key l)
       (wrap_int (DailyRuns (afterReset c l) + 1)) (MaxRuns l)
       (LastReset (afterReset c l))).
Proof.
  intros H. rewrite CanRun_split.
  destruct (afterReset_frame c l) as (Ht & Hk & Hm).
  rewrite checkAndConsume_enterprise by congruence.
  rewrite Ht, Hk, Hm, H. reflexivity.
Qed.

Lemma runCalls_enterprise_allowed cs : forall l,
  LTier l = EnterpriseTier ->
  Forall (fun x => x = (true, "")) (fst (runCalls cs l)).
Proof.
  induction cs as [|c cs IH]; intros l H; [constructor|].
  destruct (runCalls_cons c cs l) as [-> _].
  rewrite (CanRun_enterprise c l H). simpl.
  constructor; [reflexivity|]. apply IH. reflexivity.
Qed.

Lemma runCalls_enterprise_count cs : forall k d m r,
  0 <= d -> d + Z.of_nat (List.length cs) <= max_int ->
  withinPeriod r cs ->
  snd (runCalls cs (mkLicense EnterpriseTier k d m r))
  = mkLicense EnterpriseTier k (d + Z.of_nat (List.length cs)) m r.
Proof.
  induction cs as [|c cs IH]; intros k d m r Hd Hb Hw.
  - simpl. f_equal. lia.
  - inversion Hw as [|c' cs' Hc Hw']; subst.
    destruct (runCalls_cons c cs (mkLicense EnterpriseTier k d m r))
      as [_ ->].
    rewrite (CanRun_no_reset c (mkLicense EnterpriseTier k d m r) Hc).
    rewrite checkAndConsume_enterprise by reflexivity.
    cbn [snd LTier Key DailyRuns MaxRuns LastReset].
    change (Z.of_nat (List.length (c :: cs)))
      with (Z.of_nat (S (List.length cs))) in *.
    rewrite wrap_int_small by (unfold in_int, min_int, max_int in *; lia).
    rewrite IH by (try assumption; lia). f_equal. lia.
Qed.

(** C4.  On an Enterprise licence every call of [CanRun] is allowed and
    stores the counter it found after the reset, plus one (as long as
    that sum is an int).  In particular the 1000 consecutive calls that
    follow initialisation are all allowed, and inside one period they
    leave the counter at 1000. *)
Theorem C4_enterprise_unbounded :
  (forall c l,
     LTier l = EnterpriseTier ->
     fst (CanRun c l) = (true, "") /\
     DailyRuns (snd (CanRun c l))
     = wrap_int (DailyRuns (afterReset c l) + 1) /\
     (in_int (DailyRuns (afterReset c l) + 1) ->
      DailyRuns (snd (CanRun c l)) = DailyRuns (afterReset c l) + 1)) /\
  (forall key t0 cs,
     LTier (newLicense key t0) = EnterpriseTier ->
     List.length cs = 1000%nat ->
     Forall (fun x => x = (true, "")) (fst (runCalls cs (newLicense key t0)))
     /\ List.length (fst (runCalls cs (newLicense key t0))) = 1000%nat
     /\ (withinPeriod t0 cs ->
         DailyRuns (snd (runCalls cs (newLicense key t0))) = 1000)).
Proof.
  split.
  - intros c l H. rewrite (CanRun_enterprise c l H). simpl.
    repeat split. intros Hi. apply wrap_int_small. exact Hi.
  - intros key t0 cs H Hlen. split; [|split].
    + apply runCalls_enterprise_allowed. exact H.
    + rewrite runCalls_length. exact Hlen.
    + intros Hw. rewrite (newLicense_enterprise key t0 H).
      rewrite runCalls_enterprise_count;
        try assumption; rewrite ?Hlen; simpl; unfold max_int; try lia.
Qed.

Lemma C4_enterprise_unbounded_witness :
  (fst (CanRun (mkClock Hour Hour) (mkLicense EnterpriseTier "ENT_1234567890123456" 41 (-1) 0))
   = (true, "")
   /\ DailyRuns (snd (CanRun (mkClock Hour Hour)
                        (mkLicense EnterpriseTier "ENT_1234567890123456" 41 (-1) 0)))
      = 42)
  /\ (Forall (fun x => x = (true, ""))
        (fst (runCalls (repeat (mkClock Hour Hour) 1000)
                (newLicense "ENT_1234567890123456" 0)))
      /\ DailyRuns
           (snd (runCalls (repeat (mkClock Hour Hour) 1000)
                   (newLicense "ENT_1234567890123456" 0)))
         = 1000).
Proof.
  split.
  - destruct (proj1 C4_enterprise_unbounded (mkClock Hour Hour)
                (mkLicense EnterpriseTier "ENT_1234567890123456" 41 (-1) 0)
                eq_refl) as (Ha & _ & Hc).
    split; [exact Ha|]. apply Hc. vm_compute. split; discriminate.
  - destruct (proj2 C4_enterprise_unbounded "ENT_1234567890123456" 0
                (repeat (mkClock Hour Hour) 1000) eq_refl eq_refl)
      as (Ha & _ & Hc).
    split; [exact Ha|]. apply Hc.
    apply withinPeriod_repeat. vm_compute. discriminate.
Defined.

(** ** The counter is never negative *)

Lemma countCanRun_nonneg os : 0 <= countCanRun os.
Proof. unfold countCanRun. lia. Qed.

Lemma countCanRun_cons o os :
  countCanRun (o :: os)
  = (match o with OpCanRun _ => 1 | _ => 0 end) + countCanRun os.
Proof.
  unfold countCanRun. destruct o; cbn [filter]; try reflexivity.
  cbn [List.length]. lia.
Qed.

(** One call on a bounded tier keeps the counter between 0 and the limit's
    reach, whatever the clock says. *)
Lemma CanRun_nonneg_bounded c l :
  LTier l <> EnterpriseTier -> MaxRuns l <= max_int ->
  0 <= DailyRuns l -> 0 <= DailyRuns (snd (CanRun c l)).
Proof.
  intros Ht Hm Hd. rewrite CanRun_split.
  destruct (afterReset_frame c l) as (Ht' & _ & Hm').
  assert (H0 : 0 <= DailyRuns (afterReset c l))
    by (unfold afterReset; destruct (resetDue c l); simpl; lia).
  destruct (Z.lt_ge_cases (DailyRuns (afterReset c l))
              (MaxRuns (afterReset c l))) as [Hlt | Hge].
  - rewrite checkAndConsume_allowed by congruence. simpl.
    rewrite wrap_int_small; unfold in_int, min_int, max_int in *; lia.
  - rewrite checkAndConsume_denied by (congruence || lia). exact H0.
Qed.

(** One call on the Enterprise tier raises the bound on the counter by
    one. *)
Lemma CanRun_nonneg_enterprise c l k :
  LTier l = EnterpriseTier -> 0 <= DailyRuns l <= k -> k < max_int ->
  0 <= DailyRuns (snd (CanRun c l)) <= k + 1.
Proof.
  intros Ht Hd Hk. rewrite (CanRun_enterprise c l Ht). simpl.
  assert (H0 : 0 <= DailyRuns (afterReset c l) <= k)
    by (unfold afterReset; destruct (resetDue c l); simpl; lia).
  rewrite wrap_int_small; unfold in_int, min_int, max_int in *; lia.
Qed.

Lemma execAll_nonneg os : forall l k,
  MaxRuns l <= max_int ->
  0 <= DailyRuns l ->
  (LTier l = EnterpriseTier ->
   DailyRuns l <= k /\ k + countCanRun os <= max_int) ->
  0 <= DailyRuns (execAll os l).
Proof.
  induction os as [|o os IH]; intros l k Hm Hd He; [exact Hd|].
  change (execAll (o :: os) l) with (execAll os (exec o l)).
  rewrite countCanRun_cons in He.
  pose proof (countCanRun_nonneg os) as Hc.
  destruct (exec_frame o l) as (Ht & _ & Hm').
  destruct o as [c| | |]; cbn [exec] in *.
  - destruct (Tier_eqb (LTier l) EnterpriseTier) eqn:E.
    + assert (Hl : LTier l = EnterpriseTier)
        by (destruct (LTier l); try discriminate; reflexivity).
      destruct (He Hl) as [Hk Hb].
      destruct (CanRun_nonneg_enterprise c l k Hl) as [Hlo Hhi]; try lia.
      apply (IH _ (k + 1)); rewrite ?Hm'; try assumption.
      intros _. split; [exact Hhi|lia].
    + assert (Hl : LTier l <> EnterpriseTier)
        by (intros Hl; rewrite Hl in E; discriminate).
      apply (IH _ k); rewrite ?Hm'; try assumption.
      * apply CanRun_nonneg_bounded; assumption.
      * intros Hx. rewrite Ht in Hx. contradiction.
  - rewrite GetMaxTokens_state. apply (IH l k); auto.
  - rewrite GetTierName_state. apply (IH l k); auto.
  - rewrite GetStatus_state. apply (IH l k); auto.
Qed.

Lemma newLicense_initial key now :
  DailyRuns (newLicense key now) = 0 /\ MaxRuns (newLicense key now) <= 100.
Proof.
  unfold newLicense, initLicense.
  destruct (String.eqb key ""); [simpl; unfold FreeMaxRunsPerDay; lia|].
  destruct (validateKey key); [|simpl; unfold FreeMaxRunsPerDay; lia].
  destruct (HasPrefix key "ENT_"); simpl;
    unfold EnterpriseMaxRuns, ProMaxRunsPerDay; lia.
Qed.

(** At the top of the int range the Enterprise increment wraps around:
    this is why the invariant below counts the calls. *)
Remark CanRun_enterprise_wraps :
  DailyRuns
    (snd (CanRun (mkClock Hour Hour)
            (mkLicense EnterpriseTier "ENT_1234567890123456" max_int (-1) 0)))
  = min_int.
Proof. reflexivity. Qed.

(** C7.  The run counter is 0 in the initial state and is never negative
    in a state reached from it by any sequence of [CanRun], [GetMaxTokens],
    [GetTierName] and [GetStatus], at any clock readings; on the
    Enterprise tier, whose counter has no limit, for the sequences of at
    most 2^63 - 1 calls of [CanRun], within which an int cannot wrap. *)
Theorem C7_counter_never_negative :
  forall (key : string) (now : Time) (os : list Op),
    (LTier (newLicense key now) = EnterpriseTier ->
     countCanRun os <= max_int) ->
    DailyRuns (newLicense key now) = 0
    /\ 0 <= DailyRuns (execAll os (newLicense key now)).
Proof.
  intros key now os H.
  destruct (newLicense_initial key now) as [H0 Hm].
  split; [exact H0|].
  apply (execAll_nonneg os _ 0).
  - unfold max_int. lia.
  - lia.
  - intros He. split; [lia|]. apply H in He. lia.
Qed.

Lemma C7_counter_never_negative_witness :
  DailyRuns (newLicense "ENT_1234567890123456" 0) = 0
  /\ 0 <= DailyRuns
            (execAll [OpCanRun (mkClock Hour Hour); OpGetStatus;
                      OpCanRun (mkClock (30 * Hour) (30 * Hour));
                      OpGetMaxTokens; OpCanRun (mkClock (31 * Hour) (31 * Hour))]
               (newLicense "ENT_1234567890123456" 0)).
Proof.
  apply (C7_counter_never_negative "ENT_1234567890123456" 0
           [OpCanRun (mkClock Hour Hour); OpGetStatus;
            OpCanRun (mkClock (30 * Hour) (30 * Hour));
            OpGetMaxTokens; OpCanRun (mkClock (31 * Hour) (31 * Hour))]).
  intros _. vm_compute. discriminate.
Defined.

(** ** Two concurrent callers and one remaining slot *)

Lemma runSchedule_app c1 c2 s1 s2 cfg :
  runSchedule c1 c2 (s1 ++ s2) cfg
  = runSchedule c1 c2 s2 (runSchedule c1 c2 s1 cfg).
Proof. unfold runSchedule. apply fold_left_app. Qed.

(** A step that is taken shortens what the goroutine has left to do. *)
Lemma stepThread_decreases c p s p' s' :
  stepThread c p s = Some (p', s') -> (stepsLeft p' < stepsLeft p)%nat.
Proof.
  destruct p; cbn [stepThread]; intros H;
    repeat match type of H with
    | context [if ?b then _ else _] => destruct b
    end;
    inversion H; subst; cbn [stepsLeft]; lia.
Qed.

Lemma stepsLeft_zero p : stepsLeft p = 0%nat -> exists r, p = Returned r.
Proof. destruct p; cbn [stepsLeft]; try discriminate. eauto. Qed.

(** No deadlock: while a goroutine has not returned, one of the two can
    take a step. *)
Lemma quotaInv_progress l0 c1 c2 cfg :
  quotaInv l0 cfg -> workLeft cfg <> 0%nat ->
  exists g, (workLeft (stepConfig c1 c2 g cfg) < workLeft cfg)%nat.
Proof.
  destruct cfg as [[l m] p1 p2]. unfold quotaInv, workLeft.
  cbn [shared lic mu g1 g2].
  intros (_ & _ & _ & _ & _ & Hmu & Hex & _) Hw.
  assert (S1 : forall x,
             stepThread c1 p1 (mkShared l m) = Some x ->
             exists g, (workLeft (stepConfig c1 c2 g (mkConfig (mkShared l m) p1 p2))
                        < stepsLeft p1 + stepsLeft p2)%nat).
  { intros [p' s'] Hx. exists G1. unfold stepConfig, workLeft.
    cbn [shared g1 g2]. rewrite Hx. cbn [g1 g2].
    apply stepThread_decreases in Hx. lia. }
  assert (S2 : forall x,
             stepThread c2 p2 (mkShared l m) = Some x ->
             exists g, (workLeft (stepConfig c1 c2 g (mkConfig (mkShared l m) p1 p2))
                        < stepsLeft p1 + stepsLeft p2)%nat).
  { intros [p' s'] Hx. exists G2. unfold stepConfig, workLeft.
    cbn [shared g1 g2]. rewrite Hx. cbn [g1 g2].
    apply stepThread_decreases in Hx. lia. }
  destruct (DailyRuns l >=? MaxRuns l) eqn:EL;
    destruct p1; cbn [inCS orb andb] in *;
    try (eapply S1; cbn [stepThread lic]; rewrite ?EL; reflexivity);
    destruct p2; cbn [inCS orb andb stepsLeft] in *; try discriminate;
    try (eapply S2; cbn [stepThread lic]; rewrite ?EL; reflexivity);
    subst m;
    try (eapply S1; reflexivity); try (eapply S2; reflexivity);
    try (exfalso; apply Hw; reflexivity).
Qed.

Section OneSlot.

Variable l0 : License.
Variables c1 c2 : Clock.

Hypothesis bounded : LTier l0 <> EnterpriseTier.
Hypothesis oneSlot : DailyRuns l0 + 1 = MaxRuns l0.
Hypothesis limitInt : in_int (MaxRuns l0).
Hypothesis inPeriod1 : tSince c1 - LastReset l0 <= 24 * Hour.
Hypothesis inPeriod2 : tSince c2 - LastReset l0 <= 24 * Hour.

Lemma spawn_inv : quotaInv l0 (spawn l0).
Proof.
  unfold quotaInv, spawn. simpl. repeat split; auto; lia.
Qed.

Ltac pcCases :=
  repeat match goal with
  | r : (bool * string)%type |- _ => destruct r as [[|] ?]
  end;
  cbn [used inCS okPc fst snd orb andb] in *;
  repeat match goal with
  | H : _ /\ _ |- _ => destruct H
  | H : (_, _) = (_, _) |- _ => inversion H; clear H; subst
  | H : _ \/ _ |- _ => destruct H
  end;
  try discriminate; try contradiction; try lia;
  rewrite ?wrap_int_small
    by (unfold in_int, min_int, max_int in *; lia);
  repeat split; auto; try lia; try congruence;
  try (left; reflexivity);
  try (right; split; [unfold deniedAt; do 2 f_equal; lia | lia]).

Lemma stepConfig_inv g cfg :
  quotaInv l0 cfg -> quotaInv l0 (stepConfig c1 c2 g cfg).
Proof.
  destruct cfg as [[l m] p1 p2]. unfold quotaInv. cbn [shared lic mu g1 g2].
  intros (Ht & Hk & Hm & Hr & Hd & Hmu & Hex & Hu & Ho1 & Ho2).
  assert (R1 : resetDue c1 l = false)
    by (apply resetDue_false; rewrite Hr; exact inPeriod1).
  assert (R2 : resetDue c2 l = false)
    by (apply resetDue_false; rewrite Hr; exact inPeriod2).
  assert (T : Tier_eqb (LTier l) EnterpriseTier = false)
    by (rewrite Ht; destruct (LTier l0); try reflexivity;
        exfalso; apply bounded; reflexivity).
  destruct l as [t k d mx r]. cbn [LTier Key DailyRuns MaxRuns LastReset] in *.
  destruct g; unfold stepConfig; cbn [shared lic mu g1 g2];
    [destruct p1 | destruct p2];
    cbn [stepThread lic mu LTier Key DailyRuns MaxRuns LastReset];
    rewrite ?R1, ?R2, ?T;
    cbn [shared lic mu g1 g2 LTier Key DailyRuns MaxRuns LastReset
         incrDailyRuns setDailyRuns setLastReset bind get snd fst];
    try (destruct m);
    try (destruct (Z.geb_spec d mx));
    cbn [shared lic mu g1 g2 LTier Key DailyRuns MaxRuns LastReset];
    try (destruct p2); try (destruct p1); pcCases.
Qed.

Lemma runSchedule_inv sched : forall cfg,
  quotaInv l0 cfg -> quotaInv l0 (runSchedule c1 c2 sched cfg).
Proof.
  induction sched as [|g sched IH]; intros cfg H; [exact H|].
  apply IH. apply stepConfig_inv. exact H.
Qed.

(** When both goroutines have returned, one was allowed and the other
    denied, the counter is at the limit and the mutex is free. *)
Lemma quotaInv_final cfg r1 r2 :
  quotaInv l0 cfg ->
  g1 cfg = Returned r1 -> g2 cfg = Returned r2 ->
  (r1 = (true, "") /\ r2 = deniedAt (MaxRuns l0)
   \/ r1 = deniedAt (MaxRuns l0) /\ r2 = (true, ""))
  /\ DailyRuns (lic (shared cfg)) = MaxRuns l0
  /\ mu (shared cfg) = false.
Proof.
  destruct cfg as [[l m] p1 p2]. unfold quotaInv. cbn [shared lic mu g1 g2].
  intros (_ & _ & _ & _ & Hd & Hmu & _ & Hu & Ho1 & Ho2) -> ->.
  cbn [inCS orb okPc] in *.
  destruct Ho1 as [-> | [-> U1]]; destruct Ho2 as [-> | [-> U2]];
    cbn [used deniedAt fst] in *; try lia.
  - split; [left; split; reflexivity|]. split; [lia|exact Hmu].
  - split; [right; split; reflexivity|]. split; [lia|exact Hmu].
Qed.

(** Whatever has been scheduled so far, the scheduler can let both
    goroutines return. *)
Lemma quotaInv_terminates n : forall cfg,
  quotaInv l0 cfg -> (workLeft cfg <= n)%nat ->
  exists more, workLeft (runSchedule c1 c2 more cfg) = 0%nat.
Proof.
  induction n as [|n IH]; intros cfg Hi Hn.
  - exists []. simpl. lia.
  - destruct (Nat.eq_dec (workLeft cfg) 0) as [Hz | Hz].
    + exists []. exact Hz.
    + destruct (quotaInv_progress l0 c1 c2 cfg Hi Hz) as [g Hg].
      destruct (IH (stepConfig c1 c2 g cfg)) as [more Hm].
      * apply stepConfig_inv. exact Hi.
      * lia.
      * exists (g :: more). exact Hm.
Qed.

End OneSlot.

(** C8.  On a licence of a bounded tier with exactly one run left in the
    current period, two goroutines call [CanRun] concurrently, each
    statement being a step and the steps interleaved in any order.  Under
    every schedule that lets both return, one call is allowed and the other
    denied, never both allowed and never both denied, and the counter ends
    at the limit; and every schedule can be continued until both have
    returned. *)
Theorem C8_one_slot_two_callers :
  forall (l : License) (c1 c2 : Clock),
    LTier l <> EnterpriseTier ->
    DailyRuns l + 1 = MaxRuns l ->
    in_int (MaxRuns l) ->
    tSince c1 - LastReset l <= 24 * Hour ->
    tSince c2 - LastReset l <= 24 * Hour ->
    (forall sched r1 r2,
       g1 (runSchedule c1 c2 sched (spawn l)) = Returned r1 ->
       g2 (runSchedule c1 c2 sched (spawn l)) = Returned r2 ->
       (allowed r1 = true /\ allowed r2 = false
        \/ allowed r1 = false /\ allowed r2 = true)
       /\ (r1 = (true, "") /\ r2 = deniedAt (MaxRuns l)
           \/ r1 = deniedAt (MaxRuns l) /\ r2 = (true, ""))
       /\ DailyRuns (lic (shared (runSchedule c1 c2 sched (spawn l))))
          = MaxRuns l)
    /\ (forall sched, exists more r1 r2,
          g1 (runSchedule c1 c2 (sched ++ more) (spawn l)) = Returned r1 /\
          g2 (runSchedule c1 c2 (sched ++ more) (spawn l)) = Returned r2).
Proof.
  intros l c1 c2 Ht Hs Hi H1 H2.
  assert (Inv : forall sched,
             quotaInv l (runSchedule c1 c2 sched (spawn l))).
  { intros sched. apply runSchedule_inv; try assumption.
    apply spawn_inv. }
  split.
  - intros sched r1 r2 E1 E2.
    destruct (quotaInv_final l Hs _ r1 r2 (Inv sched) E1 E2) as (Hr & Hd & _).
    split; [|split; assumption].
    destruct Hr as [[-> ->] | [-> ->]]; [left|right]; split; reflexivity.
  - intros sched.
    destruct (quotaInv_terminates l c1 c2 Ht Hs Hi H1 H2 _ _
                (Inv sched) (Nat.le_refl _)) as [more Hm].
    exists more. rewrite runSchedule_app.
    unfold workLeft in Hm.
    destruct (stepsLeft_zero (g1 (runSchedule c1 c2 more
                (runSchedule c1 c2 sched (spawn l))))) as [r1 E1]; [lia|].
    destruct (stepsLeft_zero (g2 (runSchedule c1 c2 more
                (runSchedule c1 c2 sched (spawn l))))) as [r2 E2]; [lia|].
    exists r1, r2. split; assumption.
Qed.

Lemma C8_one_slot_two_callers_witness :
  (forall sched r1 r2,
     g1 (runSchedule (mkClock Hour Hour) (mkClock (2 * Hour) (2 * Hour))
           sched (spawn (mkLicense FreeTier "" 4 5 0))) = Returned r1 ->
     g2 (runSchedule (mkClock Hour Hour) (mkClock (2 * Hour) (2 * Hour))
           sched (spawn (mkLicense FreeTier "" 4 5 0))) = Returned r2 ->
     (allowed r1 = true /\ allowed r2 = false
      \/ allowed r1 = false /\ allowed r2 = true)
     /\ (r1 = (true, "") /\ r2 = deniedAt 5
         \/ r1 = deniedAt 5 /\ r2 = (true, ""))
     /\ DailyRuns
          (lic (shared
             (runSchedule (mkClock Hour Hour) (mkClock (2 * Hour) (2 * Hour))
                sched (spawn (mkLicense FreeTier "" 4 5 0))))) = 5)
  /\ (forall sched, exists more r1 r2,
        g1 (runSchedule (mkClock Hour Hour) (mkClock (2 * Hour) (2 * Hour))
              (sched ++ more) (spawn (mkLicense FreeTier "" 4 5 0)))
        = Returned r1 /\
        g2 (runSchedule (mkClock Hour Hour) (mkClock (2 * Hour) (2 * Hour))
              (sched ++ more) (spawn (mkLicense FreeTier "" 4 5 0)))
        = Returned r2).
Proof.
  apply (C8_one_slot_two_callers (mkLicense FreeTier "" 4 5 0)
           (mkClock Hour Hour) (mkClock (2 * Hour) (2 * Hour))).
  - discriminate.
  - reflexivity.
  - vm_compute. split; discriminate.
  - vm_compute. discriminate.
  - vm_compute. discriminate.
Defined.

(** Two schedules of the two callers on a Free licence at 4 of 5: the
    goroutine that takes the mutex first is the one allowed. *)
Example interleaving_first_wins :
  runSchedule (mkClock Hour Hour) (mkClock Hour Hour)
    [G1; G2; G1; G1; G2; G1; G1; G1; G2; G2; G2; G2; G2]
    (spawn (mkLicense FreeTier "" 4 5 0))
  = mkConfig (mkShared (mkLicense FreeTier "" 5 5 0) false)
      (Returned (true, "")) (Returned (deniedAt 5)).
Proof. reflexivity. Qed.

Example interleaving_second_wins :
  runSchedule (mkClock Hour Hour) (mkClock Hour Hour)
    [G2; G1; G2; G1; G2; G2; G1; G2; G2; G1; G1; G1; G1; G1]
    (spawn (mkLicense FreeTier "" 4 5 0))
  = mkConfig (mkShared (mkLicense FreeTier "" 5 5 0) false)
      (Returned (deniedAt 5)) (Returned (true, "")).
Proof. reflexivity. Qed.

(** A goroutine that runs alone executes the sequential [CanRun]. *)
Lemma solo_is_CanRun c c' l :
  runSchedule c c' (repeat G1 8) (spawn l)
  = mkConfig (mkShared (snd (CanRun c l)) false)
      (Returned (fst (CanRun c l))) AtLock.
Proof.
  rewrite CanRun_split.
  unfold afterReset, checkAndConsume, bind, get, ret, spawn, runSchedule.
  destruct l as [t k d m r].
  cbn [repeat fold_left stepConfig stepThread shared lic mu g1 g2].
  destruct (resetDue c (mkLicense t k d m r));
    cbn [fold_left stepConfig stepThread shared lic mu g1 g2
         setDailyRuns setLastReset incrDailyRuns bind get snd fst
         LTier Key DailyRuns MaxRuns LastReset];
    destruct t; cbn [Tier_eqb];
    cbn [fold_left stepConfig stepThread shared lic mu g1 g2
         setDailyRuns setLastReset incrDailyRuns bind get snd fst
         LTier Key DailyRuns MaxRuns LastReset];
    try reflexivity;
    match goal with
    | |- context [?a >=? ?b] => destruct (a >=? b)
    end;
    reflexivity.
Qed.

(** When a reset is due the counter restarts at 0, so a stored counter of
    4 out of 5 leaves five runs, and both callers are allowed. *)
Remark interleaving_after_reset :
  runSchedule (mkClock (25 * Hour) (25 * Hour)) (mkClock (25 * Hour) (25 * Hour))
    (repeat G1 8 ++ repeat G2 8)
    (spawn (mkLicense FreeTier "" 4 5 0))
  = mkConfig (mkShared (mkLicense FreeTier "" 2 5 (25 * Hour)) false)
      (Returned (true, "")) (Returned (true, "")).
Proof. reflexivity. Qed.

(** ** The cases of [check_test.go] *)

Example TestProTierLimits :
  let l := newLicense "PRO_12345678901234567890" 0 in
  LTier l = ProTier /\ fst (GetMaxTokens l) = ProMaxTokensPerRun.
Proof. split; reflexivity. Qed.

Example TestEnterpriseTier :
  LTier (newLicense "ENT_12345678901234567890" 0) = EnterpriseTier.
Proof. reflexivity. Qed.

Example TestGetTierName :
  fst (GetTierName (mkLicense FreeTier "" 0 0 0)) = "Free"
  /\ fst (GetTierName (mkLicense ProTier "" 0 0 0)) = "Pro"
  /\ fst (GetTierName (mkLicense EnterpriseTier "" 0 0 0)) = "Enterprise".
Proof. repeat split; reflexivity. Qed.

Example GetStatus_enterprise :
  fst (GetStatus (mkLicense EnterpriseTier "ENT_1234567890123456" 7 (-1) 0))
  = "License: Enterprise | Runs today: 7 | Unlimited".
Proof. reflexivity. Qed.

(** * Further properties of the package *)

(** ** Initialisation happens once *)

Lemma Initialize_done env now p :
  once p = true -> Initialize env now p = (currentLicense p, p).
Proof. intros H. unfold Initialize. rewrite H. reflexivity. Qed.

Lemma Initialize_fresh env now p :
  once p = false ->
  Initialize env now p
  = (Some (newLicense env now),
     mkProcess (Some (newLicense env now)) true
       (stdout p ++ snd (initLicense env now))).
Proof.
  intros H. unfold Initialize, newLicense. rewrite H.
  destruct (initLicense env now); reflexivity.
Qed.

(** X1.  [Initialize] takes effect once: whatever the process state, a
    second call, with any value of LICENSE_KEY and at any time, returns
    the licence the first call returned and leaves the process, output
    included, as the first call left it. *)
Theorem Initialize_idempotent :
  forall (p : Process) (env env' : string) (now now' : Time),
    Initialize env' now' (snd (Initialize env now p))
    = (fst (Initialize env now p), snd (Initialize env now p)).
Proof.
  intros p env env' now now'. destruct (once p) eqn:E.
  - rewrite (Initialize_done env now p E). simpl.
    apply Initialize_done. exact E.
  - rewrite (Initialize_fresh env now p E). reflexivity.
Qed.

Lemma access_initialised a env now l out :
  access a env now (mkProcess (Some l) true out)
  = (Some l, mkProcess (Some l) true out).
Proof. destruct a; reflexivity. Qed.

Lemma accesses_initialised xs : forall l out,
  accesses xs (mkProcess (Some l) true out)
  = (map (fun _ => Some l) xs, mkProcess (Some l) true out).
Proof.
  induction xs as [|[[a env] now] xs IH]; intros l out; [reflexivity|].
  cbn [accesses map]. rewrite access_initialised, IH. reflexivity.
Qed.

(** X2.  From process start, any sequence of calls of [Initialize] and
    [GetLicense] hands out one and the same licence, never nil: the one
    resolved from the LICENSE_KEY value and clock reading of the first
    call.  Later values of LICENSE_KEY are ignored and the start-up
    messages are written once. *)
Theorem accesses_singleton :
  forall (a : Access) (env : string) (now : Time)
         (xs : list (Access * string * Time)),
    accesses ((a, env, now) :: xs) startup
    = (map (fun _ => Some (newLicense env now)) ((a, env, now) :: xs),
       mkProcess (Some (newLicense env now)) true
         (snd (initLicense env now))).
Proof.
  intros a env now xs. cbn [accesses map].
  assert (E : access a env now startup
              = (Some (newLicense env now),
                 mkProcess (Some (newLicense env now)) true
                   (snd (initLicense env now)))).
  { destruct a; cbn [access GetLicense startup currentLicense];
      apply (Initialize_fresh env now startup); reflexivity. }
  rewrite E, accesses_initialised. reflexivity.
Qed.

(** ** What initialisation prints *)

(** X3.  The start-up output tells the tier: the Free banner is printed
    exactly when the licence is Free, the Pro and Enterprise lines exactly
    for those tiers, and the invalid-key warning exactly when a non-empty
    key failed validation; so a key that is set and rejected is never
    downgraded silently. *)
Theorem initLicense_output :
  forall (key : string) (now : Time),
    let l := fst (initLicense key now) in
    let out := snd (initLicense key now) in
    (In FreeTierBanner out <-> LTier l = FreeTier) /\
    (In ProActivated out <-> LTier l = ProTier) /\
    (In EnterpriseActivated out <-> LTier l = EnterpriseTier) /\
    (In InvalidKeyWarning out <-> key <> "" /\ validateKey key = false) /\
    snd (Initialize key now startup)
    = mkProcess (Some l) true out.
Proof.
  intros key now. cbv zeta.
  rewrite (Initialize_fresh key now startup eq_refl).
  unfold newLicense, initLicense.
  destruct (String.eqb_spec key "") as [-> | Hne].
  - cbn. repeat split; intros; try tauto; try discriminate;
      repeat match goal with
      | H : _ \/ _ |- _ => destruct H
      | H : _ /\ _ |- _ => destruct H
      end; try discriminate; try tauto; try congruence.
  - destruct (validateKey key) eqn:Hv.
    + destruct (HasPrefix key "ENT_"); cbn;
        repeat split; intros; try tauto; try discriminate;
        repeat match goal with
        | H : _ \/ _ |- _ => destruct H
        | H : _ /\ _ |- _ => destruct H
        end; try discriminate; try tauto; try congruence.
    + cbn. repeat split; intros; try tauto; try discriminate;
        repeat match goal with
        | H : _ \/ _ |- _ => destruct H
        | H : _ /\ _ |- _ => destruct H
        end; try discriminate; try tauto; try congruence.
Qed.

(** ** The format check *)

Lemma length_marker s a b c d :
  String.length (String a (String b (String c (String d s))))
  = (4 + String.length s)%nat.
Proof. reflexivity. Qed.

Lemma prefix_append p s t :
  String.prefix p s = true -> String.prefix p (s ++ t) = true.
Proof.
  revert s. induction p as [|a p IH]; intros s H;
    [destruct (s ++ t); reflexivity|].
  destruct s as [|b s]; [discriminate|].
  cbn [String.prefix append] in *.
  destruct (ascii_dec a b); [apply IH; exact H|discriminate].
Qed.

Lemma prefix_self_append p s : String.prefix p (p ++ s) = true.
Proof.
  induction p as [|a p IH]; [destruct s; reflexivity|].
  cbn [String.prefix append].
  destruct (ascii_dec a a); [exact IH|congruence].
Qed.

Lemma length_append s t :
  String.length (s ++ t) = (String.length s + String.length t)%nat.
Proof. induction s as [|a s IH]; simpl; [reflexivity|now rewrite IH]. Qed.

(** X4.  The check is on the format only.  Whatever follows the marker,
    a key "PRO_..." or "ENT_..." is valid exactly when at least 16 bytes
    follow, and then resolves to Pro, respectively Enterprise; and a valid
    key stays valid, with the same tier, when anything is appended. *)
Theorem validateKey_format_only :
  (forall s now,
     validateKey ("PRO_" ++ s) = (16 <=? String.length s)%nat /\
     LTier (newLicense ("PRO_" ++ s) now)
     = if (16 <=? String.length s)%nat then ProTier else FreeTier) /\
  (forall s now,
     validateKey ("ENT_" ++ s) = (16 <=? String.length s)%nat /\
     LTier (newLicense ("ENT_" ++ s) now)
     = if (16 <=? String.length s)%nat then EnterpriseTier else FreeTier) /\
  (forall key s now,
     validateKey key = true ->
     validateKey (key ++ s) = true /\
     LTier (newLicense (key ++ s) now) = LTier (newLicense key now)).
Proof.
  split; [|split].
  - intros s now.
    assert (V : validateKey ("PRO_" ++ s) = (16 <=? String.length s)%nat).
    { rewrite validateKey_wellFormed. unfold wellFormed_spec.
      rewrite prefix_self_append. cbn [append orb andb].
      rewrite length_marker. reflexivity. }
    split; [exact V|].
    unfold newLicense, initLicense. rewrite V.
    destruct (16 <=? String.length s)%nat; reflexivity.
  - intros s now.
    assert (V : validateKey ("ENT_" ++ s) = (16 <=? String.length s)%nat).
    { rewrite validateKey_wellFormed. unfold wellFormed_spec.
      rewrite (prefix_self_append "ENT_" s), Bool.orb_true_r.
      cbn [append andb]. rewrite length_marker. reflexivity. }
    split; [exact V|].
    unfold newLicense, initLicense. rewrite V. unfold HasPrefix.
    rewrite (prefix_self_append "ENT_" s).
    destruct (16 <=? String.length s)%nat; reflexivity.
  - intros key s now Hv.
    assert (Hv' : validateKey (key ++ s) = true).
    { apply validateKey_iff in Hv. destruct Hv as [Hp Hl].
      apply validateKey_iff. unfold HasPrefix in *. split.
      - destruct Hp as [Hp | Hp]; [left|right];
          apply prefix_append; exact Hp.
      - rewrite length_append. lia. }
    split; [exact Hv'|].
    assert (Hk : String.eqb key "" = false)
      by (destruct key; [discriminate Hv|reflexivity]).
    assert (Hk' : String.eqb (key ++ s) "" = false)
      by (destruct key; [discriminate Hv|reflexivity]).
    unfold newLicense, initLicense. rewrite Hk, Hk', Hv, Hv'.
    unfold HasPrefix.
    destruct (String.prefix "ENT_" key) eqn:He.
    + rewrite (prefix_append _ _ s He). reflexivity.
    + apply validateKey_iff in Hv. destruct Hv as [[Hp | Hp] _];
        unfold HasPrefix in Hp; [|congruence].
      pose proof (markers_exclusive (key ++ s)) as Hx.
      unfold HasPrefix in Hx. rewrite Hx by (apply prefix_append; exact Hp).
      reflexivity.
Qed.

Lemma validateKey_format_only_witness :
  validateKey ("PRO_1234567890123456" ++ "-forged") = true /\
  LTier (newLicense ("PRO_1234567890123456" ++ "-forged") 0)
  = LTier (newLicense "PRO_1234567890123456" 0).
Proof.
  apply (proj2 (proj2 validateKey_format_only)
           "PRO_1234567890123456" "-forged" 0).
  reflexivity.
Defined.

(** ** The decision of [CanRun] *)

Lemma limitMessage_nonempty u m : limitMessage u m <> "".
Proof. unfold limitMessage. cbn [append]. discriminate. Qed.

(** X5.  A call is allowed exactly when the tier is Enterprise or the
    counter, after the reset if one is due, is below the limit.  An
    allowed call returns the empty message; a denied call returns the
    non-empty limit message built from that counter and the limit, and
    consumes nothing: the licence is as the reset step left it. *)
Theorem CanRun_decision :
  forall (c : Clock) (l : License),
    (fst (fst (CanRun c l)) = true <->
     LTier l = EnterpriseTier \/ DailyRuns (afterReset c l) < MaxRuns l) /\
    (fst (fst (CanRun c l)) = true -> snd (fst (CanRun c l)) = "") /\
    (fst (fst (CanRun c l)) = false ->
     snd (fst (CanRun c l))
     = limitMessage (DailyRuns (afterReset c l)) (MaxRuns l)
     /\ snd (fst (CanRun c l)) <> ""
     /\ snd (CanRun c l) = afterReset c l).
Proof.
  intros c l. rewrite CanRun_split.
  destruct (afterReset_frame c l) as (Ht & _ & Hm).
  destruct (Tier_eqb (LTier l) EnterpriseTier) eqn:E.
  - assert (He : LTier l = EnterpriseTier)
      by (destruct (LTier l); try discriminate; reflexivity).
    rewrite checkAndConsume_enterprise by congruence. cbn [fst snd].
    repeat split; auto; discriminate.
  - assert (Hn : LTier l <> EnterpriseTier)
      by (intros He; rewrite He in E; discriminate).
    destruct (Z.lt_ge_cases (DailyRuns (afterReset c l)) (MaxRuns l))
      as [Hlt | Hge].
    + rewrite checkAndConsume_allowed by congruence. cbn [fst snd].
      repeat split; auto; discriminate.
    + rewrite checkAndConsume_denied by (congruence || lia). cbn [fst snd].
      rewrite Hm. split; [|split].
      * split; [discriminate|]. intros [He | Hlt]; [contradiction|lia].
      * discriminate.
      * intros _. split; [reflexivity|].
        split; [apply limitMessage_nonempty|reflexivity].
Qed.

(** ** The counter never passes the limit *)

Lemma CanRun_within_limit c l :
  LTier l <> EnterpriseTier -> 0 <= MaxRuns l <= max_int ->
  0 <= DailyRuns l <= MaxRuns l ->
  0 <= DailyRuns (snd (CanRun c l)) <= MaxRuns l.
Proof.
  intros Ht Hm Hd. rewrite CanRun_split.
  destruct (afterReset_frame c l) as (Ht' & _ & Hm').
  assert (H0 : 0 <= DailyRuns (afterReset c l) <= MaxRuns l)
    by (unfold afterReset; destruct (resetDue c l); simpl; lia).
  destruct (Z.lt_ge_cases (DailyRuns (afterReset c l))
              (MaxRuns (afterReset c l))) as [Hlt | Hge].
  - rewrite checkAndConsume_allowed by congruence. simpl.
    rewrite wrap_int_small; unfold in_int, min_int, max_int in *; lia.
  - rewrite checkAndConsume_denied by (congruence || lia). exact H0.
Qed.

Lemma execAll_within_limit os : forall l,
  LTier l <> EnterpriseTier -> 0 <= MaxRuns l <= max_int ->
  0 <= DailyRuns l <= MaxRuns l ->
  0 <= DailyRuns (execAll os l) <= MaxRuns l.
Proof.
  induction os as [|o os IH]; intros l Ht Hm Hd; [exact Hd|].
  change (execAll (o :: os) l) with (execAll os (exec o l)).
  destruct (exec_frame o l) as (Ht' & _ & Hm').
  rewrite <- Hm'. apply IH; rewrite ?Ht', ?Hm'; try assumption.
  destruct o as [c| | |]; cbn [exec].
  - apply CanRun_within_limit; assumption.
  - rewrite GetMaxTokens_state. exact Hd.
  - rewrite GetTierName_state. exact Hd.
  - rewrite GetStatus_state. exact Hd.
Qed.

(** X6.  On the Free and Pro tiers the counter never passes the limit: in
    every state reached from initialisation by any operations at any
    clock readings, 0 <= DailyRuns <= MaxRuns, so no period admits more
    runs than the tier allows. *)
Theorem counter_within_limit :
  forall (key : string) (now : Time) (os : list Op),
    LTier (newLicense key now) <> EnterpriseTier ->
    0 <= DailyRuns (execAll os (newLicense key now))
      <= MaxRuns (newLicense key now).
Proof.
  intros key now os Ht.
  destruct (newLicense_initial key now) as [H0 Hm].
  assert (Hp : 0 <= MaxRuns (newLicense key now)).
  { revert Ht. unfold newLicense, initLicense.
    destruct (String.eqb key ""); [simpl; unfold FreeMaxRunsPerDay; lia|].
    destruct (validateKey key); [|simpl; unfold FreeMaxRunsPerDay; lia].
    destruct (HasPrefix key "ENT_"); simpl;
      [congruence|unfold ProMaxRunsPerDay; lia]. }
  apply execAll_within_limit; try assumption; unfold max_int; lia.
Qed.

Lemma counter_within_limit_witness :
  0 <= DailyRuns
         (execAll [OpCanRun (mkClock Hour Hour); OpCanRun (mkClock Hour Hour);
                   OpGetStatus; OpCanRun (mkClock (30 * Hour) (30 * Hour))]
            (newLicense "PRO_1234567890123456" 0))
    <= MaxRuns (newLicense "PRO_1234567890123456" 0).
Proof.
  apply (counter_within_limit "PRO_1234567890123456" 0
           [OpCanRun (mkClock Hour Hour); OpCanRun (mkClock Hour Hour);
            OpGetStatus; OpCanRun (mkClock (30 * Hour) (30 * Hour))]).
  discriminate.
Defined.

(** ** The Pro tier *)

Lemma newLicense_pro key t0 :
  LTier (newLicense key t0) = ProTier ->
  newLicense key t0 = mkLicense ProTier key 0 100 t0.
Proof.
  unfold newLicense, initLicense.
  destruct (String.eqb key ""); [discriminate|].
  destruct (validateKey key); [|discriminate].
  destruct (HasPrefix key "ENT_"); [discriminate|reflexivity].
Qed.

(** X7.  On a freshly initialised Pro licence, with all calls inside one
    period, the first 100 calls are allowed and each raises the counter by
    one; the 101st and all later ones are denied with the message that
    gives 100/100 and the upgrade address, and the counter stays at
    100. *)
Theorem pro_tier_exhaustion :
  forall (key : string) (t0 : Time) (cs : list Clock),
    LTier (newLicense key t0) = ProTier ->
    withinPeriod t0 cs ->
    (forall i x,
       nth_error (fst (runCalls cs (newLicense key t0))) i = Some x ->
       x = if Z.of_nat i <? 100 then (true, "")
           else (false,
                 "Daily limit reached (100/100 runs). Upgrade at https://bakerstreetproject221B.store/pricing"))
    /\ (forall n,
          DailyRuns (snd (runCalls (firstn n cs) (newLicense key t0)))
          = Z.min 100 (Z.of_nat (List.length (firstn n cs)))).
Proof.
  intros key t0 cs Hf Hw. rewrite (newLicense_pro key t0 Hf). split.
  - intros i x Hx.
    destruct (runCalls_bounded cs ProTier key 0 100 t0) as [_ Hn];
      try assumption; try discriminate; try (unfold max_int; lia).
    apply Hn in Hx. exact Hx.
  - intros n.
    destruct (runCalls_bounded (firstn n cs) ProTier key 0 100 t0)
      as [Hs _]; try discriminate; try (unfold max_int; lia).
    + apply withinPeriod_firstn; assumption.
    + rewrite Hs. reflexivity.
Qed.

Lemma pro_tier_exhaustion_witness :
  (forall i x,
     nth_error
       (fst (runCalls (repeat (mkClock Hour Hour) 102)
               (newLicense "PRO_1234567890123456" 0))) i = Some x ->
     x = if Z.of_nat i <? 100 then (true, "")
         else (false,
               "Daily limit reached (100/100 runs). Upgrade at https://bakerstreetproject221B.store/pricing"))
  /\ (forall n,
        DailyRuns
          (snd (runCalls (firstn n (repeat (mkClock Hour Hour) 102))
                  (newLicense "PRO_1234567890123456" 0)))
        = Z.min 100
            (Z.of_nat
               (List.length (firstn n (repeat (mkClock Hour Hour) 102))))).
Proof.
  apply (pro_tier_exhaustion "PRO_1234567890123456" 0
           (repeat (mkClock Hour Hour) 102)).
  - reflexivity.
  - apply withinPeriod_repeat. vm_compute. discriminate.
Defined.

(** ** A new period *)

(** X8.  A call that finds a reset due on a bounded tier with a positive
    limit is allowed whatever the counter was, and opens a period that
    starts at the current time: the calls that follow inside that period
    are allowed until the period has had as many runs as the limit, and
    denied from then on. *)
Theorem new_period_full_quota :
  forall (t : Tier) (k : string) (d m : Z) (r : Time)
         (c : Clock) (cs : list Clock),
    t <> EnterpriseTier -> 0 < m <= max_int ->
    tSince c - r > 24 * Hour ->
    withinPeriod (tNow c) cs ->
    fst (CanRun c (mkLicense t k d m r)) = (true, "")
    /\ (forall i x,
          nth_error
            (fst (runCalls cs (snd (CanRun c (mkLicense t k d m r))))) i
          = Some x ->
          x = if 1 + Z.of_nat i <? m then (true, "") else deniedAt m)
    /\ snd (runCalls (c :: cs) (mkLicense t k d m r))
       = mkLicense t k (Z.min m (1 + Z.of_nat (List.length cs))) m (tNow c).
Proof.
  intros t k d m r c cs Ht Hm Hr Hw.
  assert (E : CanRun c (mkLicense t k d m r)
              = ((true, ""), mkLicense t k 1 m (tNow c))).
  { rewrite (CanRun_reset c (mkLicense t k d m r) Hr).
    cbn [LTier Key MaxRuns].
    rewrite checkAndConsume_allowed by (simpl; auto; lia). reflexivity. }
  destruct (runCalls_cons c cs (mkLicense t k d m r)) as [_ ->].
  rewrite E. cbn [fst snd].
  destruct (runCalls_bounded cs t k 1 m (tNow c)) as [Hs Hn];
    try assumption; try lia.
  split; [reflexivity|]. split; [exact Hn|exact Hs].
Qed.

Lemma new_period_full_quota_witness :
  fst (CanRun (mkClock (25 * Hour) (25 * Hour)) (mkLicense FreeTier "" 5 5 0))
  = (true, "")
  /\ (forall i x,
        nth_error
          (fst (runCalls (repeat (mkClock (26 * Hour) (26 * Hour)) 6)
                  (snd (CanRun (mkClock (25 * Hour) (25 * Hour))
                          (mkLicense FreeTier "" 5 5 0))))) i
        = Some x ->
        x = if 1 + Z.of_nat i <? 5 then (true, "") else deniedAt 5)
  /\ snd (runCalls (mkClock (25 * Hour) (25 * Hour)
                      :: repeat (mkClock (26 * Hour) (26 * Hour)) 6)
            (mkLicense FreeTier "" 5 5 0))
     = mkLicense FreeTier ""
         (Z.min 5 (1 + Z.of_nat
                         (List.length
                            (repeat (mkClock (26 * Hour) (26 * Hour)) 6))))
         5 (25 * Hour).
Proof.
  apply (new_period_full_quota FreeTier "" 5 5 0
           (mkClock (25 * Hour) (25 * Hour))
           (repeat (mkClock (26 * Hour) (26 * Hour)) 6)).
  - discriminate.
  - vm_compute. split; [reflexivity|discriminate].
  - reflexivity.
  - apply withinPeriod_repeat. vm_compute. discriminate.
Defined.

(** ** The period start *)

Lemma CanRun_LastReset c l :
  tSince c <= tNow c ->
  (LastReset (snd (CanRun c l)) = LastReset l
   \/ LastReset (snd (CanRun c l)) - LastReset l > 24 * Hour)
  /\ resetDue c (snd (CanRun c l)) = false.
Proof.
  intros Hc. rewrite CanRun_split.
  destruct (checkAndConsume_frame (afterReset c l)) as (_ & _ & _ & Hr).
  cbv zeta in Hr. unfold resetDue at 1. rewrite Since_gt_day, Hr.
  unfold afterReset. destruct (resetDue c l) eqn:E; cbn [LastReset].
  - apply resetDue_true in E. split; [right; lia|].
    destruct (Z.gtb_spec (tSince c - tNow c) (24 * Hour)); [|reflexivity].
    unfold Hour in *. lia.
  - split; [left; reflexivity|].
    unfold resetDue in E. rewrite Since_gt_day in E. exact E.
Qed.

Lemma execAll_LastReset os : forall l,
  Forall monotoneReading os -> LastReset l <= LastReset (execAll os l).
Proof.
  induction os as [|o os IH]; intros l H; [apply Z.le_refl|].
  inversion H as [|o' os' Ho Hos]; subst.
  change (execAll (o :: os) l) with (execAll os (exec o l)).
  apply Z.le_trans with (LastReset (exec o l)); [|apply IH; exact Hos].
  destruct o as [c| | |]; cbn [exec monotoneReading] in *.
  - destruct (CanRun_LastReset c l Ho) as [[-> | Hgt] _];
      [apply Z.le_refl|unfold Hour in Hgt; lia].
  - rewrite GetMaxTokens_state. apply Z.le_refl.
  - rewrite GetTierName_state. apply Z.le_refl.
  - rewrite GetStatus_state. apply Z.le_refl.
Qed.

(** X9.  With a clock that does not run backwards between the two
    readings of a call, the period start never moves back through any
    sequence of operations; one call leaves it where it was or moves it
    forward by more than 24 hours, and after the call no reset is due at
    the instant of the call. *)
Theorem period_start_monotone :
  (forall (os : list Op) (l : License),
     Forall monotoneReading os ->
     LastReset l <= LastReset (execAll os l)) /\
  (forall (c : Clock) (l : License),
     tSince c <= tNow c ->
     (LastReset (snd (CanRun c l)) = LastReset l
      \/ LastReset (snd (CanRun c l)) - LastReset l > 24 * Hour)
     /\ resetDue c (snd (CanRun c l)) = false).
Proof.
  split; [exact execAll_LastReset | exact CanRun_LastReset].
Qed.

Lemma period_start_monotone_witness :
  0 <= LastReset
         (execAll [OpCanRun (mkClock Hour Hour); OpGetStatus;
                   OpCanRun (mkClock (30 * Hour) (31 * Hour))]
            (mkLicense FreeTier "" 0 5 0))
  /\ ((LastReset (snd (CanRun (mkClock (30 * Hour) (31 * Hour))
                         (mkLicense FreeTier "" 1 5 0))) = 0
       \/ LastReset (snd (CanRun (mkClock (30 * Hour) (31 * Hour))
                            (mkLicense FreeTier "" 1 5 0))) - 0
          > 24 * Hour)
      /\ resetDue (mkClock (30 * Hour) (31 * Hour))
           (snd (CanRun (mkClock (30 * Hour) (31 * Hour))
                   (mkLicense FreeTier "" 1 5 0))) = false).
Proof.
  split.
  - apply (proj1 period_start_monotone
             [OpCanRun (mkClock Hour Hour); OpGetStatus;
              OpCanRun (mkClock (30 * Hour) (31 * Hour))]
             (mkLicense FreeTier "" 0 5 0)).
    repeat constructor; vm_compute; discriminate.
  - apply (proj2 period_start_monotone (mkClock (30 * Hour) (31 * Hour))
             (mkLicense FreeTier "" 1 5 0)).
    vm_compute. discriminate.
Defined.

(** ** What the outputs depend on *)

(** X10.  The key is stored and never shown: replacing the key of a
    licence changes neither the status line, nor the decision and message
    of [CanRun], nor the token limit, nor the tier name.  The status line
    does not depend on the period start either. *)
Theorem outputs_independent_of_key :
  forall (t : Tier) (k k' : string) (d m : Z) (r r' : Time) (c : Clock),
    fst (GetStatus (mkLicense t k' d m r'))
    = fst (GetStatus (mkLicense t k d m r)) /\
    fst (CanRun c (mkLicense t k' d m r))
    = fst (CanRun c (mkLicense t k d m r)) /\
    fst (GetMaxTokens (mkLicense t k' d m r'))
    = fst (GetMaxTokens (mkLicense t k d m r)) /\
    fst (GetTierName (mkLicense t k' d m r'))
    = fst (GetTierName (mkLicense t k d m r)).
Proof.
  intros t k k' d m r r' c.
  split; [destruct t; reflexivity|].
  split; [|split; destruct t; reflexivity].
  rewrite !CanRun_split. unfold afterReset, resetDue. cbn [LastReset].
  destruct (Since (tSince c) r >? 24 * Hour);
    cbn [LTier Key MaxRuns DailyRuns];
    unfold checkAndConsume, bind, get, ret;
    destruct t; cbn [LTier Tier_eqb DailyRuns MaxRuns fst];
    try reflexivity;
    match goal with
    | |- context [?a >=? ?b] => destruct (a >=? b)
    end; reflexivity.
Qed.

(** ** A higher tier admits at least as much *)

Lemma CanRun_at c t k d m r :
  CanRun c (mkLicense t k d m r)
  = checkAndConsume
      (if resetDue c (mkLicense t k d m r)
       then mkLicense t k 0 m (tNow c)
       else mkLicense t k d m r).
Proof. rewrite CanRun_split. reflexivity. Qed.

Lemma resetDue_fields c t k d m r t' k' d' m' :
  resetDue c (mkLicense t' k' d' m' r) = resetDue c (mkLicense t k d m r).
Proof. reflexivity. Qed.

Lemma runCalls_free_pro cs : forall kF kP dF dP r i,
  dF = Z.min 5 dP -> 0 <= dP <= 100 ->
  nth_error (fst (runCalls cs (mkLicense FreeTier kF dF 5 r))) i
  = Some (true, "") ->
  nth_error (fst (runCalls cs (mkLicense ProTier kP dP 100 r))) i
  = Some (true, "").
Proof.
  induction cs as [|c cs IH]; intros kF kP dF dP r i Hd Hp Hx.
  - destruct i; discriminate.
  - destruct (runCalls_cons c cs (mkLicense FreeTier kF dF 5 r)) as [EF _].
    destruct (runCalls_cons c cs (mkLicense ProTier kP dP 100 r)) as [EP _].
    rewrite EF in Hx. rewrite EP. clear EF EP.
    rewrite CanRun_at in *.
    rewrite (resetDue_fields c FreeTier kF dF 5 r ProTier kP dP 100).
    destruct (resetDue c (mkLicense FreeTier kF dF 5 r)).
    + rewrite checkAndConsume_allowed in * by (simpl; auto; lia || discriminate).
      cbn [fst snd LTier Key DailyRuns MaxRuns LastReset] in *.
      destruct i as [|i]; [reflexivity|]. cbn [nth_error] in *.
      eapply IH; [| |exact Hx]; vm_compute; try split; congruence.
    + destruct (Z.lt_ge_cases dF 5) as [Hlt | Hge].
      * assert (dP = dF) by lia. subst dP.
        rewrite checkAndConsume_allowed in *
          by (simpl; auto; lia || discriminate).
        cbn [fst snd LTier Key DailyRuns MaxRuns LastReset] in *.
        destruct i as [|i]; [reflexivity|]. cbn [nth_error] in *.
        rewrite wrap_int_small in *
          by (unfold in_int, min_int, max_int; lia).
        eapply IH; [| |exact Hx]; lia.
      * rewrite (checkAndConsume_denied (mkLicense FreeTier kF dF 5 r)) in Hx
          by (simpl; auto; lia || discriminate).
        cbn [fst snd] in Hx.
        destruct i as [|i]; [discriminate Hx|]. cbn [nth_error] in *.
        destruct (Z.lt_ge_cases dP 100) as [Hl | Hg].
        -- rewrite checkAndConsume_allowed
             by (simpl; auto; lia || discriminate).
           cbn [fst snd LTier Key DailyRuns MaxRuns LastReset].
           rewrite wrap_int_small
             by (unfold in_int, min_int, max_int; lia).
           eapply IH; [| |exact Hx]; lia.
        -- rewrite checkAndConsume_denied
             by (simpl; auto; lia || discriminate).
           cbn [fst snd]. eapply IH; [| |exact Hx]; lia.
Qed.

(** X11.  Upgrading never takes a run away.  For licences initialised at
    the same time and called at the same clock readings, whatever these
    are: a call allowed on the Free licence is allowed on the Pro licence,
    and every call made on the Enterprise licence is allowed. *)
Theorem higher_tier_admits_more :
  forall (kF kP kE : string) (t0 : Time) (cs : list Clock) (i : nat),
    LTier (newLicense kF t0) = FreeTier ->
    LTier (newLicense kP t0) = ProTier ->
    LTier (newLicense kE t0) = EnterpriseTier ->
    (nth_error (fst (runCalls cs (newLicense kF t0))) i = Some (true, "") ->
     nth_error (fst (runCalls cs (newLicense kP t0))) i = Some (true, ""))
    /\ ((i < List.length cs)%nat ->
        nth_error (fst (runCalls cs (newLicense kE t0))) i
        = Some (true, "")).
Proof.
  intros kF kP kE t0 cs i HF HP HE. split.
  - rewrite (newLicense_free kF t0 HF), (newLicense_pro kP t0 HP).
    apply runCalls_free_pro; [reflexivity|lia].
  - intros Hi.
    pose proof (runCalls_enterprise_allowed cs (newLicense kE t0) HE) as Ha.
    rewrite <- (runCalls_length cs (newLicense kE t0)) in Hi.
    destruct (nth_error (fst (runCalls cs (newLicense kE t0))) i) as [x|] eqn:E.
    + rewrite Forall_forall in Ha. rewrite (Ha x); [reflexivity|].
      eapply nth_error_In. exact E.
    + apply nth_error_None in E. lia.
Qed.

Lemma higher_tier_admits_more_witness :
  (nth_error
     (fst (runCalls (repeat (mkClock Hour Hour) 8) (newLicense "" 0))) 3
   = Some (true, "") ->
   nth_error
     (fst (runCalls (repeat (mkClock Hour Hour) 8)
             (newLicense "PRO_1234567890123456" 0))) 3
   = Some (true, ""))
  /\ ((3 < List.length (repeat (mkClock Hour Hour) 8))%nat ->
      nth_error
        (fst (runCalls (repeat (mkClock Hour Hour) 8)
                (newLicense "ENT_1234567890123456" 0))) 3
      = Some (true, "")).
Proof.
  apply (higher_tier_admits_more "" "PRO_1234567890123456"
           "ENT_1234567890123456" 0 (repeat (mkClock Hour Hour) 8) 3);
    reflexivity.
Defined.

(** ** The mutex, for every licence and every clock *)

Ltac splitIfs :=
  repeat match goal with
  | |- context [if ?b then _ else _] => destruct b
  end.

Lemma stepConfig_mutex c1 c2 g cfg :
  mutexInv cfg -> mutexInv (stepConfig c1 c2 g cfg).
Proof.
  destruct cfg as [[l m] p1 p2]. unfold mutexInv.
  cbn [shared lic mu g1 g2]. intros [Hmu Hex].
  destruct g; unfold stepConfig; cbn [shared lic mu g1 g2];
    [destruct p1 | destruct p2]; cbn [stepThread mu lic];
    try (destruct m); splitIfs; cbn [shared lic mu g1 g2 inCS orb andb] in *;
    try (split; [assumption || reflexivity | assumption || reflexivity]);
    try discriminate;
    try (destruct p2; cbn [inCS orb andb] in *;
         try discriminate; split; reflexivity);
    try (destruct p1; cbn [inCS orb andb] in *;
         try discriminate; split; reflexivity).
Qed.

Lemma runSchedule_mutex c1 c2 sched : forall cfg,
  mutexInv cfg -> mutexInv (runSchedule c1 c2 sched cfg).
Proof.
  induction sched as [|g sched IH]; intros cfg H; [exact H|].
  apply IH. apply stepConfig_mutex. exact H.
Qed.

Lemma spawn_mutex l : mutexInv (spawn l).
Proof. split; reflexivity. Qed.

Lemma mutex_progress c1 c2 cfg :
  mutexInv cfg -> workLeft cfg <> 0%nat ->
  exists g, (workLeft (stepConfig c1 c2 g cfg) < workLeft cfg)%nat.
Proof.
  destruct cfg as [[l m] p1 p2]. unfold mutexInv, workLeft.
  cbn [shared lic mu g1 g2]. intros [Hmu Hex] Hw.
  assert (S1 : forall x,
             stepThread c1 p1 (mkShared l m) = Some x ->
             exists g, (workLeft (stepConfig c1 c2 g (mkConfig (mkShared l m) p1 p2))
                        < stepsLeft p1 + stepsLeft p2)%nat).
  { intros [p' s'] Hx. exists G1. unfold stepConfig, workLeft.
    cbn [shared g1 g2]. rewrite Hx. cbn [g1 g2].
    apply stepThread_decreases in Hx. lia. }
  assert (S2 : forall x,
             stepThread c2 p2 (mkShared l m) = Some x ->
             exists g, (workLeft (stepConfig c1 c2 g (mkConfig (mkShared l m) p1 p2))
                        < stepsLeft p1 + stepsLeft p2)%nat).
  { intros [p' s'] Hx. exists G2. unfold stepConfig, workLeft.
    cbn [shared g1 g2]. rewrite Hx. cbn [g1 g2].
    apply stepThread_decreases in Hx. lia. }
  destruct (DailyRuns l >=? MaxRuns l) eqn:EL;
    destruct p1; cbn [inCS orb andb] in *;
    try (eapply S1; cbn [stepThread lic]; rewrite ?EL; reflexivity);
    destruct p2; cbn [inCS orb andb stepsLeft] in *; try discriminate;
    try (eapply S2; cbn [stepThread lic]; rewrite ?EL; reflexivity);
    subst m;
    try (eapply S1; reflexivity); try (eapply S2; reflexivity);
    try (exfalso; apply Hw; reflexivity).
Qed.

Lemma mutex_terminates c1 c2 n : forall cfg,
  mutexInv cfg -> (workLeft cfg <= n)%nat ->
  exists more, workLeft (runSchedule c1 c2 more cfg) = 0%nat.
Proof.
  induction n as [|n IH]; intros cfg Hi Hn.
  - exists []. simpl. lia.
  - destruct (Nat.eq_dec (workLeft cfg) 0) as [Hz | Hz].
    + exists []. exact Hz.
    + destruct (mutex_progress c1 c2 cfg Hi Hz) as [g Hg].
      destruct (IH (stepConfig c1 c2 g cfg)) as [more Hm].
      * apply stepConfig_mutex. exact Hi.
      * lia.
      * exists (g :: more). exact Hm.
Qed.

(** X12.  Whatever the licence, the clock readings and the schedule: the
    two goroutines are never inside the critical section of [CanRun]
    together, the mutex is held exactly while one of them is inside, and
    the run cannot deadlock: it can always be continued until both calls
    have returned, with the mutex released. *)
Theorem CanRun_mutual_exclusion :
  forall (l : License) (c1 c2 : Clock) (sched : list Goroutine),
    inCS (g1 (runSchedule c1 c2 sched (spawn l)))
    && inCS (g2 (runSchedule c1 c2 sched (spawn l))) = false
    /\ mu (shared (runSchedule c1 c2 sched (spawn l)))
       = (inCS (g1 (runSchedule c1 c2 sched (spawn l)))
          || inCS (g2 (runSchedule c1 c2 sched (spawn l))))
    /\ exists more r1 r2,
         g1 (runSchedule c1 c2 (sched ++ more) (spawn l)) = Returned r1
         /\ g2 (runSchedule c1 c2 (sched ++ more) (spawn l)) = Returned r2
         /\ mu (shared (runSchedule c1 c2 (sched ++ more) (spawn l)))
            = false.
Proof.
  intros l c1 c2 sched.
  pose proof (runSchedule_mutex c1 c2 sched (spawn l) (spawn_mutex l))
    as Hi.
  destruct Hi as [Hmu Hex]. split; [exact Hex|]. split; [exact Hmu|].
  destruct (mutex_terminates c1 c2 _ _
              (runSchedule_mutex c1 c2 sched (spawn l) (spawn_mutex l))
              (Nat.le_refl _)) as [more Hm].
  exists more. rewrite runSchedule_app.
  pose proof (runSchedule_mutex c1 c2 more _
                (runSchedule_mutex c1 c2 sched (spawn l) (spawn_mutex l)))
    as [Hmu' _].
  unfold workLeft in Hm.
  destruct (stepsLeft_zero (g1 (runSchedule c1 c2 more
              (runSchedule c1 c2 sched (spawn l))))) as [r1 E1]; [lia|].
  destruct (stepsLeft_zero (g2 (runSchedule c1 c2 more
              (runSchedule c1 c2 sched (spawn l))))) as [r2 E2]; [lia|].
  exists r1, r2. split; [exact E1|]. split; [exact E2|].
  rewrite Hmu', E1, E2. reflexivity.
Qed.

(** ** Concurrent calls are serialised *)

(** A step inside the critical section either is the [Unlock], which
    returns what [rest] announced, or leaves [rest] as it was. *)
Lemma rest_step c p l p' s' x :
  stepThread c p (mkShared l true) = Some (p', s') ->
  rest c p l = Some x ->
  (exists r, p' = Returned r /\ x = (r, l) /\ s' = mkShared l false)
  \/ (rest c p' (lic s') = Some x /\ mu s' = true).
Proof.
  destruct p; cbn [stepThread rest lic mu]; intros Hs Hr;
    try discriminate.
  - (* AtSince *)
    inversion Hs; subst; clear Hs. right. split; [|reflexivity].
    rewrite <- Hr. rewrite CanRun_split. unfold afterReset.
    destruct (resetDue c l); reflexivity.
  - (* AtResetRuns *)
    inversion Hs; subst; clear Hs. right. split; [exact Hr|reflexivity].
  - (* AtResetTime *)
    inversion Hs; subst; clear Hs. right. split; [exact Hr|reflexivity].
  - (* AtTier *)
    inversion Hs; subst; clear Hs. right. split; [|reflexivity].
    rewrite <- Hr. unfold checkAndConsume, bind, get, ret. cbn [lic].
    destruct (Tier_eqb (LTier l) EnterpriseTier); cbn [rest];
      [reflexivity|].
    destruct (DailyRuns l >=? MaxRuns l); reflexivity.
  - (* AtEntIncr *)
    inversion Hs; subst; clear Hs. right. split; [exact Hr|reflexivity].
  - (* AtLimit *)
    destruct (DailyRuns l >=? MaxRuns l); inversion Hs; subst; clear Hs;
      right; (split; [exact Hr|reflexivity]).
  - (* AtIncr *)
    inversion Hs; subst; clear Hs. right. split; [exact Hr|reflexivity].
  - (* AtUnlock *)
    inversion Hs; subst; clear Hs. inversion Hr; subst. left.
    exists r. repeat split.
Qed.

Lemma rest_in_CS c p l x : rest c p l = Some x -> inCS p = true.
Proof. destruct p; cbn [rest inCS]; intros H; try discriminate; reflexivity. Qed.

(** The goroutine that went first takes a step. *)
Lemma order_first_steps ca cb l0 l m pa pb pa' s' :
  order ca cb l0 l m pa pb ->
  stepThread ca pa (mkShared l m) = Some (pa', s') ->
  order ca cb l0 (lic s') (mu s') pa' pb.
Proof.
  intros [(Hb & Hm & Hr) | [(ra & Ha & _) | [(ra & la & Ha & _)
         | (ra & la & rb & Ha & _)]]] Hs;
    try (subst pa; discriminate Hs).
  subst m pb.
  destruct (rest_step ca pa l pa' s' _ Hs Hr)
    as [(r & -> & Hx & ->) | [Hr' Hm']].
  - right. left. exists r. cbn [lic mu]. repeat split. exact Hx.
  - left. repeat split; assumption.
Qed.

(** The goroutine that goes second takes a step. *)
Lemma order_second_steps ca cb l0 l m pa pb pb' s' :
  order ca cb l0 l m pa pb ->
  stepThread cb pb (mkShared l m) = Some (pb', s') ->
  order ca cb l0 (lic s') (mu s') pa pb'.
Proof.
  intros [(Hb & Hm & Hr) | [(ra & Ha & Hb & Hm & Hc)
         | [(ra & la & Ha & Hm & Hc & Hr)
         | (ra & la & rb & Ha & Hb & _)]]] Hs.
  - subst m pb. discriminate Hs.
  - subst m pb pa. cbn [stepThread mu lic] in Hs.
    inversion Hs; subst; clear Hs. cbn [lic mu].
    right. right. left. exists ra, l. repeat split. exact Hc.
  - subst m pa.
    destruct (rest_step cb pb l pb' s' _ Hs Hr)
      as [(r & -> & Hx & ->) | [Hr' Hm']].
    + right. right. right. exists ra, la, r. cbn [lic mu].
      repeat split; assumption.
    + right. right. left. exists ra, la. repeat split; assumption.
  - subst pb. discriminate Hs.
Qed.

Lemma stepConfig_serial c1 c2 l0 g cfg :
  serialInv c1 c2 l0 cfg -> serialInv c1 c2 l0 (stepConfig c1 c2 g cfg).
Proof.
  destruct cfg as [[l m] p1 p2]. unfold serialInv.
  cbn [shared lic mu g1 g2]. intros H.
  destruct g; unfold stepConfig; cbn [shared g1 g2].
  - destruct (stepThread c1 p1 (mkShared l m)) as [[p' s']|] eqn:Hs;
      [|exact H]. cbn [shared lic mu g1 g2].
    destruct H as [(-> & -> & -> & ->) | [H | H]].
    + cbn [stepThread mu lic] in Hs. inversion Hs; subst; clear Hs.
      right. left. left. cbn [lic mu rest]. repeat split.
    + right. left. eapply order_first_steps; eassumption.
    + right. right. eapply order_second_steps; eassumption.
  - destruct (stepThread c2 p2 (mkShared l m)) as [[p' s']|] eqn:Hs;
      [|exact H]. cbn [shared lic mu g1 g2].
    destruct H as [(-> & -> & -> & ->) | [H | H]].
    + cbn [stepThread mu lic] in Hs. inversion Hs; subst; clear Hs.
      right. right. left. cbn [lic mu rest]. repeat split.
    + right. left. eapply order_second_steps; eassumption.
    + right. right. eapply order_first_steps; eassumption.
Qed.

Lemma runSchedule_serial c1 c2 l0 sched : forall cfg,
  serialInv c1 c2 l0 cfg -> serialInv c1 c2 l0 (runSchedule c1 c2 sched cfg).
Proof.
  induction sched as [|g sched IH]; intros cfg H; [exact H|].
  apply IH. apply stepConfig_serial. exact H.
Qed.

(** X13.  Concurrent calls of [CanRun] are serialised by the mutex.  For
    every licence (any tier, any counter, reset due or not), all clock
    readings and every schedule of the statements of two goroutines: once
    both have returned, their two results and the final licence are those
    of the two calls made one after the other, in one of the two
    orders. *)
Theorem CanRun_serializable :
  forall (l : License) (c1 c2 : Clock) (sched : list Goroutine)
         (r1 r2 : bool * string),
    g1 (runSchedule c1 c2 sched (spawn l)) = Returned r1 ->
    g2 (runSchedule c1 c2 sched (spawn l)) = Returned r2 ->
    (exists l1,
       CanRun c1 l = (r1, l1) /\
       CanRun c2 l1
       = (r2, lic (shared (runSchedule c1 c2 sched (spawn l)))))
    \/ (exists l2,
          CanRun c2 l = (r2, l2) /\
          CanRun c1 l2
          = (r1, lic (shared (runSchedule c1 c2 sched (spawn l))))).
Proof.
  intros l c1 c2 sched r1 r2 E1 E2.
  assert (H : serialInv c1 c2 l (runSchedule c1 c2 sched (spawn l))).
  { apply runSchedule_serial. left. repeat split. }
  unfold serialInv in H. rewrite E1, E2 in H.
  destruct H as [(H & _) | [H | H]]; [discriminate H| |].
  - left.
    destruct H as [(Hb & _) | [(ra & _ & Hb & _)
           | [(ra & la & _ & _ & _ & Hr) | (ra & la & rb & Ha & Hb & _ & Hc1 & Hc2)]]];
      try discriminate.
    inversion Ha; inversion Hb; subst. exists la. split; assumption.
  - right.
    destruct H as [(Hb & _) | [(ra & _ & Hb & _)
           | [(ra & la & _ & _ & _ & Hr) | (ra & la & rb & Ha & Hb & _ & Hc1 & Hc2)]]];
      try discriminate.
    inversion Ha; inversion Hb; subst. exists la. split; assumption.
Qed.

Lemma CanRun_serializable_witness :
  (exists l1,
     CanRun (mkClock (25 * Hour) (25 * Hour))
       (mkLicense ProTier "PRO_1234567890123456" 99 100 0)
     = ((true, ""), l1) /\
     CanRun (mkClock Hour Hour) l1
     = ((true, ""),
        lic (shared
               (runSchedule (mkClock (25 * Hour) (25 * Hour))
                  (mkClock Hour Hour)
                  [G2; G1; G2; G2; G1; G2; G2; G2; G1; G1; G1; G1; G1; G1; G1; G1]
                  (spawn (mkLicense ProTier "PRO_1234567890123456" 99 100 0))))))
  \/ (exists l2,
        CanRun (mkClock Hour Hour)
          (mkLicense ProTier "PRO_1234567890123456" 99 100 0)
        = ((true, ""), l2) /\
        CanRun (mkClock (25 * Hour) (25 * Hour)) l2
        = ((true, ""),
           lic (shared
                  (runSchedule (mkClock (25 * Hour) (25 * Hour))
                     (mkClock Hour Hour)
                     [G2; G1; G2; G2; G1; G2; G2; G2; G1; G1; G1; G1; G1; G1; G1; G1]
                     (spawn (mkLicense ProTier "PRO_1234567890123456" 99 100 0)))))).
Proof.
  apply (CanRun_serializable
           (mkLicense ProTier "PRO_1234567890123456" 99 100 0)
           (mkClock (25 * Hour) (25 * Hour)) (mkClock Hour Hour)
           [G2; G1; G2; G2; G1; G2; G2; G2; G1; G1; G1; G1; G1; G1; G1; G1]);
    reflexivity.
Defined.

(** ** [GetStatus] beside [CanRun] *)

Lemma inCS_enabled c p s :
  inCS p = true -> exists x, stepThread c p s = Some x.
Proof.
  destruct p; cbn [inCS stepThread]; intros H; try discriminate;
    splitIfs; eauto.
Qed.

Lemma stepStatusConfig_inv c l0 w cfg :
  statusInv c l0 cfg -> statusInv c l0 (stepStatusConfig c w cfg).
Proof.
  destruct cfg as [[l m] p q]. unfold statusInv.
  cbn [sshared lic mu runner reader]. intros H.
  destruct w; unfold stepStatusConfig; cbn [sshared runner reader].
  - (* the runner steps *)
    destruct (stepThread c p (mkShared l m)) as [[p' s']|] eqn:Hs;
      [|exact H]. cbn [sshared lic mu runner reader].
    destruct H as [(-> & -> & -> & ->) | [(-> & -> & Hr)
           | [(r & -> & _) | [(-> & -> & Hq)
           | [(-> & -> & Hr) | (r & -> & _)]]]]];
      try discriminate Hs.
    + cbn [stepThread mu lic] in Hs. inversion Hs; subst; clear Hs.
      right. left. cbn [lic mu rest]. repeat split.
    + destruct (rest_step c p l p' s' _ Hs Hr)
        as [(r & -> & Hx & ->) | [Hr' Hm']].
      * right. right. left. exists r. cbn [lic mu].
        split; [reflexivity|]. split; [exact Hx|]. left. split; reflexivity.
      * right. left. repeat split; assumption.
    + destruct Hq as [[-> ->] | [[-> ->] | [-> ->]]];
        cbn [stepThread mu lic] in Hs; try discriminate Hs.
      inversion Hs; subst; clear Hs.
      right. right. right. right. left. cbn [lic mu rest]. repeat split.
    + destruct (rest_step c p l p' s' _ Hs Hr)
        as [(r & -> & Hx & ->) | [Hr' Hm']].
      * right. right. right. right. right. exists r. cbn [lic mu].
        repeat split. exact Hx.
      * right. right. right. right. left. repeat split; assumption.
  - (* the reader steps *)
    destruct (stepStatus q (mkShared l m)) as [[q' s']|] eqn:Hs;
      [|exact H]. cbn [sshared lic mu runner reader].
    destruct H as [(-> & -> & -> & ->) | [(-> & -> & Hr)
           | [(r & -> & Hc & Hq) | [(-> & -> & Hq)
           | [(-> & -> & Hr) | (r & -> & _ & -> & _)]]]]];
      try discriminate Hs.
    + cbn [stepStatus mu lic] in Hs. inversion Hs; subst; clear Hs.
      right. right. right. left. cbn [lic mu].
      split; [reflexivity|]. split; [reflexivity|]. left. split; reflexivity.
    + right. right. left. exists r.
      destruct Hq as [[-> ->] | [[-> ->] | [[-> ->] | [-> ->]]]];
        cbn [stepStatus mu lic] in Hs; try discriminate Hs;
        inversion Hs; subst; clear Hs; cbn [lic mu];
        rewrite ?GetStatus_state;
        (split; [reflexivity|]); (split; [exact Hc|]); right.
      * left. split; reflexivity.
      * right. left. split; reflexivity.
      * right. right. split; reflexivity.
    + right. right. right. left.
      destruct Hq as [[-> ->] | [[-> ->] | [-> ->]]];
        cbn [stepStatus mu lic] in Hs; try discriminate Hs;
        inversion Hs; subst; clear Hs; cbn [lic mu];
        rewrite ?GetStatus_state;
        (split; [reflexivity|]); (split; [reflexivity|]).
      * right. left. split; reflexivity.
      * right. right. split; reflexivity.
Qed.

Lemma runStatusSchedule_inv c l0 sched : forall cfg,
  statusInv c l0 cfg -> statusInv c l0 (runStatusSchedule c sched cfg).
Proof.
  induction sched as [|w sched IH]; intros cfg H; [exact H|].
  apply IH. apply stepStatusConfig_inv. exact H.
Qed.

Lemma runStatusSchedule_app c s1 s2 cfg :
  runStatusSchedule c (s1 ++ s2) cfg
  = runStatusSchedule c s2 (runStatusSchedule c s1 cfg).
Proof. unfold runStatusSchedule. apply fold_left_app. Qed.

Lemma stepStatus_decreases p s p' s' :
  stepStatus p s = Some (p', s') ->
  (statusStepsLeft p' < statusStepsLeft p)%nat.
Proof.
  destruct p; cbn [stepStatus]; intros H;
    try (destruct (mu s)); inversion H; subst; cbn [statusStepsLeft]; lia.
Qed.

Lemma status_progress c l0 cfg :
  statusInv c l0 cfg -> statusWorkLeft cfg <> 0%nat ->
  exists w,
    (statusWorkLeft (stepStatusConfig c w cfg) < statusWorkLeft cfg)%nat.
Proof.
  destruct cfg as [[l m] p q]. unfold statusInv, statusWorkLeft.
  cbn [sshared lic mu runner reader]. intros H Hw.
  assert (S1 : forall x,
             stepThread c p (mkShared l m) = Some x ->
             exists w,
               (statusWorkLeft
                  (stepStatusConfig c w (mkStatusConfig (mkShared l m) p q))
                < stepsLeft p + statusStepsLeft q)%nat).
  { intros [p' s'] Hx. exists Runner. unfold stepStatusConfig, statusWorkLeft.
    cbn [sshared runner reader]. rewrite Hx. cbn [runner reader].
    apply stepThread_decreases in Hx. lia. }
  assert (S2 : forall x,
             stepStatus q (mkShared l m) = Some x ->
             exists w,
               (statusWorkLeft
                  (stepStatusConfig c w (mkStatusConfig (mkShared l m) p q))
                < stepsLeft p + statusStepsLeft q)%nat).
  { intros [q' s'] Hx. exists Reader. unfold stepStatusConfig, statusWorkLeft.
    cbn [sshared runner reader]. rewrite Hx. cbn [runner reader].
    apply stepStatus_decreases in Hx. lia. }
  destruct H as [(-> & -> & -> & ->) | [(-> & -> & Hr)
         | [(r & -> & Hc & Hq) | [(-> & -> & Hq)
         | [(-> & -> & Hr) | (r & -> & _ & -> & _)]]]]].
  - eapply S1. reflexivity.
  - apply rest_in_CS in Hr.
    destruct (inCS_enabled c p (mkShared l true) Hr) as [x Hx].
    eapply S1. exact Hx.
  - destruct Hq as [[-> ->] | [[-> ->] | [[-> ->] | [-> ->]]]];
      try (eapply S2; reflexivity).
    exfalso. apply Hw. reflexivity.
  - destruct Hq as [[-> ->] | [[-> ->] | [-> ->]]];
      try (eapply S2; reflexivity).
    eapply S1. reflexivity.
  - apply rest_in_CS in Hr.
    destruct (inCS_enabled c p (mkShared l true) Hr) as [x Hx].
    eapply S1. exact Hx.
  - exfalso. apply Hw. reflexivity.
Qed.

Lemma status_terminates c l0 n : forall cfg,
  statusInv c l0 cfg -> (statusWorkLeft cfg <= n)%nat ->
  exists more, statusWorkLeft (runStatusSchedule c more cfg) = 0%nat.
Proof.
  induction n as [|n IH]; intros cfg Hi Hn.
  - exists []. simpl. lia.
  - destruct (Nat.eq_dec (statusWorkLeft cfg) 0) as [Hz | Hz].
    + exists []. exact Hz.
    + destruct (status_progress c l0 cfg Hi Hz) as [w Hg].
      destruct (IH (stepStatusConfig c w cfg)) as [more Hm].
      * apply stepStatusConfig_inv. exact Hi.
      * lia.
      * exists (w :: more). exact Hm.
Qed.

Lemma statusStepsLeft_zero p :
  statusStepsLeft p = 0%nat -> exists x, p = SReturned x.
Proof. destruct p; cbn [statusStepsLeft]; try discriminate. eauto. Qed.

(** X14.  [GetStatus] running beside [CanRun] reads the licence either
    before or after the whole call, never in between: under every
    schedule, once both have returned, [CanRun] has had its sequential
    effect and the status line is the one of the licence as it was before
    the call or as the call left it.  Every schedule can be continued
    until both have returned. *)
Theorem GetStatus_atomic_snapshot :
  forall (l : License) (c : Clock),
    (forall sched r x,
       runner (runStatusSchedule c sched (spawnStatus l)) = Returned r ->
       reader (runStatusSchedule c sched (spawnStatus l)) = SReturned x ->
       CanRun c l
       = (r, lic (sshared (runStatusSchedule c sched (spawnStatus l))))
       /\ (x = fst (GetStatus l)
           \/ x = fst (GetStatus (snd (CanRun c l))))
       /\ mu (sshared (runStatusSchedule c sched (spawnStatus l))) = false)
    /\ (forall sched, exists more r x,
          runner (runStatusSchedule c (sched ++ more) (spawnStatus l))
          = Returned r /\
          reader (runStatusSchedule c (sched ++ more) (spawnStatus l))
          = SReturned x).
Proof.
  intros l c.
  assert (Inv : forall sched,
             statusInv c l (runStatusSchedule c sched (spawnStatus l))).
  { intros sched. apply runStatusSchedule_inv. left. repeat split. }
  split.
  - intros sched r x E1 E2. pose proof (Inv sched) as H.
    unfold statusInv in H. cbv zeta in H. rewrite E1, E2 in H.
    destruct H as [(H & _) | [(H & _) | [(r' & Hr & Hc & Hq)
           | [(H & _) | [(_ & _ & Hr) | (r' & Hr & Hc & Hq & Hm)]]]]];
      try discriminate.
    + inversion Hr; subst r'.
      destruct Hq as [[Hq _] | [[Hq _] | [[Hq _] | [Hq Hm]]]];
        try discriminate.
      inversion Hq; subst x. split; [exact Hc|].
      split; [right; rewrite Hc; reflexivity|exact Hm].
    + inversion Hr; subst r'. inversion Hq; subst x.
      split; [exact Hc|]. split; [left; reflexivity|exact Hm].
  - intros sched.
    destruct (status_terminates c l _ _ (Inv sched) (Nat.le_refl _))
      as [more Hm].
    exists more. rewrite runStatusSchedule_app. unfold statusWorkLeft in Hm.
    destruct (stepsLeft_zero (runner (runStatusSchedule c more
                (runStatusSchedule c sched (spawnStatus l)))))
      as [r E1]; [lia|].
    destruct (statusStepsLeft_zero (reader (runStatusSchedule c more
                (runStatusSchedule c sched (spawnStatus l)))))
      as [x E2]; [lia|].
    exists r, x. split; assumption.
Qed.

Lemma GetStatus_atomic_snapshot_witness :
  CanRun (mkClock (25 * Hour) (25 * Hour)) (mkLicense FreeTier "" 5 5 0)
  = ((true, ""),
     lic (sshared
            (runStatusSchedule (mkClock (25 * Hour) (25 * Hour))
               [Runner; Runner; Runner; Reader; Runner; Reader; Runner;
                Runner; Runner; Runner; Reader; Reader; Reader]
               (spawnStatus (mkLicense FreeTier "" 5 5 0)))))
  /\ ("License: Free | Runs: 1/5 | Tokens/run: 1000"
      = fst (GetStatus (mkLicense FreeTier "" 5 5 0))
      \/ "License: Free | Runs: 1/5 | Tokens/run: 1000"
         = fst (GetStatus
                  (snd (CanRun (mkClock (25 * Hour) (25 * Hour))
                          (mkLicense FreeTier "" 5 5 0)))))
  /\ mu (sshared
           (runStatusSchedule (mkClock (25 * Hour) (25 * Hour))
              [Runner; Runner; Runner; Reader; Runner; Reader; Runner;
               Runner; Runner; Runner; Reader; Reader; Reader]
              (spawnStatus (mkLicense FreeTier "" 5 5 0)))) = false.
Proof.
  apply (proj1 (GetStatus_atomic_snapshot (mkLicense FreeTier "" 5 5 0)
                  (mkClock (25 * Hour) (25 * Hour)))
           [Runner; Runner; Runner; Reader; Runner; Reader; Runner;
            Runner; Runner; Runner; Reader; Reader; Reader]);
    reflexivity.
Defined.
